(** * MBBuddy mind-map pipeline: a shallow embedding of
      [backend/api/mindmap_api.py] and the properties of its specification.

    The file follows the pipeline leaf-first: the Python run-time values the
    code works on (text, numbers), Text Metrics ([calculate_text_width],
    [wrap_text]), the Outline Parser ([parse_markdown_to_simple_structure]),
    the Tree Builder and the Renderer (both inside
    [create_simple_svg_mindmap]), the Prompt Builder ([build_mindmap_prompt])
    and the two request handlers ([generate_mindmap],
    [preview_mindmap_markdown]). *)

From Stdlib Require Import ZArith NArith List Bool Lia Ascii String DecimalString.
From Stdlib Require Import SpecFloat.
From stdpp Require Import base option list gmap.

Local Open Scope Z_scope.

(** ** Python text

    A Python [str] is a sequence of Unicode code points: [len] counts code
    points and [ord] returns one, so a [str] is modelled as a list of code
    points, not as bytes. *)
Module PyStr.

Abbreviation char := N.
Abbreviation pystr := (list char).

(** Source literals are written as UTF-8 text and decoded to code points. *)
Fixpoint utf8_decode (bs : list N) : pystr :=
  match bs with
  | [] => []
  | b0 :: r0 =>
    if (b0 <? 128)%N then b0 :: utf8_decode r0
    else match r0 with
    | [] => []
    | b1 :: r1 =>
      if (b0 <? 224)%N then ((b0 - 192) * 64 + (b1 - 128))%N :: utf8_decode r1
      else match r1 with
      | [] => []
      | b2 :: r2 =>
        if (b0 <? 240)%N
        then ((b0 - 224) * 4096 + (b1 - 128) * 64 + (b2 - 128))%N :: utf8_decode r2
        else match r2 with
        | [] => []
        | b3 :: r3 =>
          ((b0 - 240) * 262144 + (b1 - 128) * 4096 + (b2 - 128) * 64 + (b3 - 128))%N
            :: utf8_decode r3
        end
      end
    end
  end.

(** [py "..."] is the Python literal with that text. *)
Definition py (s : string) : pystr :=
  utf8_decode (List.map N_of_ascii (list_ascii_of_string s)).

(** [pyq "..."] is the same, for literals that contain double quotes: in the
    text handed to [pyq] every [~] stands for one double quote (code point
    34). No literal of the program contains a tilde. *)
Definition pyq (s : string) : pystr :=
  List.map (fun c => if (c =? 126)%N then 34%N else c) (py s).

Definition NL : char := 10%N.
Definition SP : char := 32%N.

(** [str.isspace] for one character: the Unicode white space of CPython,
    which is what [str.strip()] removes and [str.split()] splits on. *)
Definition isspace (c : char) : bool :=
  ((9 <=? c) && (c <=? 13) || (28 <=? c) && (c <=? 32)
   || (c =? 133) || (c =? 160) || (c =? 5760)
   || (8192 <=? c) && (c <=? 8202)
   || (c =? 8232) || (c =? 8233) || (c =? 8239) || (c =? 8287)
   || (c =? 12288))%N.

Fixpoint dropwhile (p : char -> bool) (s : pystr) : pystr :=
  match s with
  | [] => []
  | c :: s' => if p c then dropwhile p s' else s
  end.

(** [s.lstrip()], [s.rstrip()], [s.strip()]. *)
Definition lstrip (s : pystr) : pystr := dropwhile isspace s.
Definition rstrip (s : pystr) : pystr := rev (dropwhile isspace (rev s)).
Definition strip (s : pystr) : pystr := rstrip (lstrip s).

(** [s.lstrip(chars)]: drops leading characters that occur in [chars]. *)
Definition lstrip_chars (chars : pystr) (s : pystr) : pystr :=
  dropwhile (fun c => existsb (N.eqb c) chars) s.

(** [s.startswith(prefix)]. *)
Fixpoint startswith (prefix s : pystr) : bool :=
  match prefix, s with
  | [], _ => true
  | _ :: _, [] => false
  | p :: prefix', c :: s' => (p =? c)%N && startswith prefix' s'
  end.

(** [s.split(sep)] for a one-character separator: never an empty list. *)
Fixpoint split_on (sep : char) (s : pystr) : list pystr :=
  match s with
  | [] => [[]]
  | c :: s' =>
    if (c =? sep)%N then [] :: split_on sep s'
    else match split_on sep s' with
         | w :: ws => (c :: w) :: ws
         | [] => [[c]]
         end
  end.

(** [sep.join(parts)]. *)
Fixpoint join (sep : pystr) (parts : list pystr) : pystr :=
  match parts with
  | [] => []
  | [p] => p
  | p :: rest => p ++ sep ++ join sep rest
  end.

Definition cons_word (w : pystr) (ws : list pystr) : list pystr :=
  match w with [] => ws | _ :: _ => w :: ws end.

(** [s.split()]: the maximal runs of non-space characters, in order.
    [split_go s] is the pair of the run [s] starts with (empty when [s]
    starts with white space) and the words after it. *)
Fixpoint split_go (s : pystr) : pystr * list pystr :=
  match s with
  | [] => ([], [])
  | c :: s' =>
    let (w, ws) := split_go s' in
    if isspace c then ([], cons_word w ws) else (c :: w, ws)
  end.

Definition split (s : pystr) : list pystr :=
  let (w, ws) := split_go s in cons_word w ws.

(** A word: what [split] produces, non-empty and free of white space. *)
Definition is_word (w : pystr) : Prop :=
  w <> [] /\ Forall (fun c => isspace c = false) w.

(** [str(n)] for an [int]. *)
Definition str_of_int (n : Z) : pystr :=
  List.map N_of_ascii (list_ascii_of_string (NilZero.string_of_int (Z.to_int n))).

(** [f"{n:02d}"]-style zero padding to at least [w] digits, as [strftime]
    does for its numeric fields (which are never negative). *)
Definition zero_pad (w : nat) (n : Z) : pystr :=
  let d := str_of_int n in
  repeat 48%N (w - length d) ++ d.

End PyStr.
Import PyStr.

Arguments py : simpl never.
Arguments pyq : simpl never.
Arguments str_of_int : simpl never.

(** ** Python numbers

    [calculate_text_width] multiplies by the [float] literals [0.9] and
    [0.6], so widths are IEEE 754 binary64 values; box coordinates mix them
    with [int]s. Floats are the [spec_float]s of the Standard Library at
    precision 53, with round-to-nearest-even arithmetic. *)
Module PyNum.

Definition prec : Z := 53.
Definition emax : Z := 1024.

Definition float := spec_float.

(** [float(n)] for an [int]: exact below [2^53], rounded to nearest above.
    (CPython raises OverflowError where this saturates to an infinity, from
    [2^1024] on; no text is that long and the font sizes are 18, 14, 11.) *)
Definition float_of_int (n : Z) : float := binary_normalize prec emax n 0 false.

Definition fmul : float -> float -> float := SFmul prec emax.
Definition fadd : float -> float -> float := SFadd prec emax.
Definition fsub : float -> float -> float := SFsub prec emax.

(** The literals [0.9] and [0.6]: the doubles nearest to 9/10 and 6/10,
    [0x1.ccccccccccccdp-1] and [0x1.3333333333333p-1]. *)
Definition f0_9 : float := S754_finite false 8106479329266893 (-53).
Definition f0_6 : float := S754_finite false 5404319552844595 (-53).

(** Exact comparison of a float with an [int], as CPython compares mixed
    operands; [None] for a NaN, which compares false with everything. *)
Definition float_cmp_int (f : float) (n : Z) : option comparison :=
  match f with
  | S754_nan => None
  | S754_zero _ => Some (0 ?= n)
  | S754_infinity s => Some (if s then Lt else Gt)
  | S754_finite s m e =>
    let v := cond_Zopp s (Zpos m) in
    Some (if 0 <=? e then (v * 2 ^ e ?= n) else (v ?= n * 2 ^ (- e)))
  end.

(** [f <= n] and [f > n] for a float [f] and an [int] [n]. *)
Definition float_le_int (f : float) (n : Z) : bool :=
  match float_cmp_int f n with
  | Some Lt | Some Eq => true
  | _ => false
  end.

Definition float_gt_int (f : float) (n : Z) : bool :=
  match float_cmp_int f n with
  | Some Gt => true
  | _ => false
  end.

(** [floor] of a float, as an integer when the float is finite. *)
Definition float_floor (f : float) : option Z :=
  match f with
  | S754_zero _ => Some 0
  | S754_finite s m e =>
    let v := cond_Zopp s (Zpos m) in
    Some (if 0 <=? e then v * 2 ^ e else v / 2 ^ (- e))
  | _ => None
  end.

(** A number as the renderer handles it: an [int] or a [float]. *)
Inductive pynum :=
  | PyInt (n : Z)
  | PyFloat (f : float).

Definition to_float (a : pynum) : float :=
  match a with PyInt n => float_of_int n | PyFloat f => f end.

(** [a + b] and [a - b]: [int] arithmetic on two [int]s, float arithmetic
    as soon as one operand is a [float]. *)
Definition num_add (a b : pynum) : pynum :=
  match a, b with
  | PyInt x, PyInt y => PyInt (x + y)
  | _, _ => PyFloat (fadd (to_float a) (to_float b))
  end.

Definition num_sub (a b : pynum) : pynum :=
  match a, b with
  | PyInt x, PyInt y => PyInt (x - y)
  | _, _ => PyFloat (fsub (to_float a) (to_float b))
  end.

(** [a // 2]. On an [int] it is floor division. On a finite float CPython
    computes [fmod], subtracts and divides, all of which are exact for the
    divisor 2, so the result is the float [floor(a / 2)], a zero keeping
    the sign of [a]; on an infinity or a NaN it is a NaN. *)
Definition num_floordiv2 (a : pynum) : pynum :=
  match a with
  | PyInt n => PyInt (n / 2)
  | PyFloat f =>
    match float_floor f with
    | Some z =>
      match z / 2 with
      | Z0 => PyFloat (S754_zero (match f with
                                  | S754_zero s | S754_finite s _ _ => s
                                  | _ => false
                                  end))
      | q => PyFloat (float_of_int q)
      end
    | None => PyFloat S754_nan
    end
  end.

(** [max(n, a)] for an [int] literal [n] first: Python keeps the first
    argument unless the second is strictly greater. *)
Definition max_int_num (n : Z) (a : pynum) : pynum :=
  match a with
  | PyInt m => if n <? m then a else PyInt n
  | PyFloat f => if float_gt_int f n then a else PyInt n
  end.

(** [max(gen)] over floats: the first maximal element; ValueError ([None])
    on an empty sequence. *)
Definition max_floats (l : list float) : option float :=
  match l with
  | [] => None
  | x :: r => Some (fold_left (fun m y => if SFltb m y then y else m) r x)
  end.

End PyNum.
Import PyNum.

(** Truth value of a [str] in a condition: non-empty. *)
Definition truthy (s : pystr) : bool :=
  match s with [] => false | _ :: _ => true end.

(** ** Text Metrics *)

(** [calculate_text_width(text, font_size)]. *)
Definition calculate_text_width (text : pystr) (font_size : Z) : float :=
  let chinese_chars := Z.of_nat (length (List.filter (fun c => (127 <? c)%N) text)) in
  let english_chars := Z.of_nat (length text) - chinese_chars in
  let chinese_width := fmul (float_of_int (chinese_chars * font_size)) f0_9 in
  let english_width := fmul (float_of_int (english_chars * font_size)) f0_6 in
  fadd chinese_width english_width.

(** The test [calculate_text_width(s, font_size) <= max_width]. *)
Definition fits (max_width font_size : Z) (s : pystr) : bool :=
  float_le_int (calculate_text_width s font_size) max_width.

(** One iteration of the loop of [wrap_text] over [words]; the state is
    [(lines, current_line)]. *)
Definition wrap_step (max_width font_size : Z)
    (st : list pystr * pystr) (word : pystr) : list pystr * pystr :=
  let '(lines, current_line) := st in
  let test_line :=
    current_line ++ (if truthy current_line then [SP] else []) ++ word in
  if fits max_width font_size test_line
  then (lines, test_line)
  else ((if truthy current_line then lines ++ [current_line] else lines), word).

(** [wrap_text(text, max_width, font_size)]. *)
Definition wrap_text (text : pystr) (max_width font_size : Z) : list pystr :=
  if fits max_width font_size text then [text]
  else
    let words := split text in
    let '(lines, current_line) :=
      fold_left (wrap_step max_width font_size) words ([], []) in
    let lines := if truthy current_line then lines ++ [current_line] else lines in
    match lines with
    | [] => [text]
    | _ :: _ => lines
    end.

(** ** Outline Parser *)

Inductive node_type := heading | item.

(** An outline node: the dict with keys ['level'], ['title'], ['type']. *)
Record node := Node { level : Z; title : pystr; type : node_type }.

(** The body of the loop of [parse_markdown_to_simple_structure] for one
    physical line. *)
Definition parse_line (structure : list node) (line : pystr) : list node :=
  let line := strip line in
  if negb (truthy line) then structure
  else if startswith (py "#") line then
    let level :=
      Z.of_nat (length line) - Z.of_nat (length (lstrip_chars (py "#") line)) in
    let title := strip (lstrip_chars (py "# ") line) in
    structure ++ [Node level title heading]
  else if startswith (py "-") line then
    let content := strip (lstrip_chars (py "- ") line) in
    structure ++ [Node 0 content item]
  else structure.

(** [parse_markdown_to_simple_structure(markdown_content)]. *)
Definition parse_markdown_to_simple_structure (markdown_content : pystr) : list node :=
  fold_left parse_line (split_on NL (strip markdown_content)) [].

(** ** Tree Builder (first half of [create_simple_svg_mindmap]) *)

(** A subtopic dict: keys ['title'], ['items']. *)
Record subtopic := Subtopic { s_title : pystr; s_items : list pystr }.

(** A topic dict: keys ['title'], ['subtopics'], ['items'] (the loose
    items, bullets that precede every subtopic). *)
Record topic := Topic { t_title : pystr; subtopics : list subtopic; items : list pystr }.

(** The state of the fold. [current_topic] is a reference to a dict that is
    also an element of [main_topics], and the loop mutates the dict through
    it: the reference is modelled as the index of that element, [None]
    being Python's [None]. *)
Record builder := Builder { main_topics : list topic; current_topic : option nat }.

Definition add_subtopic (s : subtopic) (t : topic) : topic :=
  Topic (t_title t) (subtopics t ++ [s]) (items t).

Definition add_item_to_last_subtopic (x : pystr) (t : topic) : topic :=
  Topic (t_title t)
        (alter (fun s => Subtopic (s_title s) (s_items s ++ [x]))
               (length (subtopics t) - 1)%nat (subtopics t))
        (items t).

Definition add_loose_item (x : pystr) (t : topic) : topic :=
  Topic (t_title t) (subtopics t) (items t ++ [x]).

(** The body of the loop [for item in structure]. *)
Definition build_step (st : builder) (it : node) : builder :=
  match type it with
  | heading =>
    if level it =? 1 then
      Builder (main_topics st ++ [Topic (title it) [] []])
              (Some (length (main_topics st)))
    else if level it =? 2 then
      match current_topic st with
      | Some i =>
        Builder (alter (add_subtopic (Subtopic (title it) [])) i (main_topics st))
                (Some i)
      | None => st
      end
    else st
  | item =>
    match current_topic st with
    | Some i =>
      match main_topics st !! i with
      | Some t =>
        match subtopics t with
        | _ :: _ =>
          Builder (alter (add_item_to_last_subtopic (title it)) i (main_topics st))
                  (Some i)
        | [] =>
          Builder (alter (add_loose_item (title it)) i (main_topics st)) (Some i)
        end
      | None => st
      end
    | None => st
    end
  end.

Definition build_init : builder := Builder [] None.

Definition build_topics (structure : list node) : builder :=
  fold_left build_step structure build_init.

(** ** Exceptions

    Fallible code returns [res A]: [inl e] when it raises [e], [inr a] when
    it returns [a]. Only instances of [Exception] are modelled. *)
Inductive exn :=
  | HTTPException (status_code : Z) (detail : pystr)
  | ValueError (msg : pystr)
  | OtherException (msg : pystr).

Definition res (A : Type) : Type := exn + A.

Definition ok {A} (a : A) : res A := inr a.
Definition raise {A} (e : exn) : res A := inl e.

Definition bind {A B} (m : res A) (k : A -> res B) : res B :=
  match m with
  | inl e => inl e
  | inr a => k a
  end.

Notation "'let*' x ':=' m 'in' k" := (bind m (fun x => k))
  (at level 10, x name, m at level 100, k at level 200).

(** [try: m except Exception as e: h(e)]. *)
Definition try_except {A} (m : res A) (h : exn -> res A) : res A :=
  match m with
  | inl e => h e
  | inr a => inr a
  end.

(** Runs the fallible pieces in order and concatenates what they append to
    [svg_content]; the first exception ends the run. *)
Fixpoint collect (pieces : list (res pystr)) : res pystr :=
  match pieces with
  | [] => ok []
  | p :: rest =>
    let* s := p in
    let* r := collect rest in
    ok (s ++ r)
  end.

(** [str(e)]. An [HTTPException] prints as its status code, a colon and its
    detail (Starlette's [__str__]). *)
Definition str_of_exn (e : exn) : pystr :=
  match e with
  | HTTPException status_code detail => str_of_int status_code ++ py ": " ++ detail
  | ValueError msg => msg
  | OtherException msg => msg
  end.

(** ** Diagram Layout and Renderer (second half of
       [create_simple_svg_mindmap]) *)

Definition width : Z := 1200.
Definition height : Z := 800.

(** The [colors] dict. *)
Module colors.
Definition background : pystr := py "#f8fffe".
Definition main : pystr := py "#2e7d6b".
Definition level1 : pystr := py "#4a9b8e".
Definition level2 : pystr := py "#7bb3a9".
Definition level3 : pystr := py "#a8cdc4".
Definition text : pystr := py "#1a4037".
Definition line : pystr := py "#4a9b8e".
End colors.

(** The text lines of a literal, each followed by a newline. *)
Definition text_lines (ls : list pystr) : pystr :=
  concat (List.map (fun l => l ++ [NL]) ls).

(** The document head: the first value of [svg_content]. *)
Definition svg_header : pystr :=
  text_lines [
    pyq "<?xml version=~1.0~ encoding=~UTF-8~?>";
    pyq "<svg width=~" ++ str_of_int width ++ pyq "~ height=~" ++ str_of_int height
      ++ pyq "~ xmlns=~http://www.w3.org/2000/svg~>";
    pyq "    <defs>";
    pyq "        <linearGradient id=~mainGrad~ x1=~0%~ y1=~0%~ x2=~100%~ y2=~0%~>";
    pyq "            <stop offset=~0%~ style=~stop-color:" ++ colors.main
      ++ pyq ";stop-opacity:1~ />";
    pyq "            <stop offset=~100%~ style=~stop-color:" ++ colors.level1
      ++ pyq ";stop-opacity:1~ />";
    pyq "        </linearGradient>";
    pyq "        <linearGradient id=~branchGrad~ x1=~0%~ y1=~0%~ x2=~100%~ y2=~0%~>";
    pyq "            <stop offset=~0%~ style=~stop-color:" ++ colors.level1
      ++ pyq ";stop-opacity:1~ />";
    pyq "            <stop offset=~100%~ style=~stop-color:" ++ colors.level2
      ++ pyq ";stop-opacity:1~ />";
    pyq "        </linearGradient>";
    pyq "        <filter id=~shadow~ x=~-20%~ y=~-20%~ width=~140%~ height=~140%~>";
    pyq "            <feDropShadow dx=~2~ dy=~2~ stdDeviation=~3~ flood-opacity=~0.3~/>";
    pyq "        </filter>";
    pyq "    </defs>";
    pyq "    ";
    pyq "    <style>";
    pyq "        .main-title { font-family: 'Arial', sans-serif; font-size: 18px; font-weight: bold; fill: white; }";
    pyq "        .branch-title { font-family: 'Arial', sans-serif; font-size: 14px; font-weight: 600; fill: white; }";
    pyq "        .item-text { font-family: 'Arial', sans-serif; font-size: 11px; fill: "
      ++ colors.text ++ pyq "; }";
    pyq "        .connector { stroke: " ++ colors.line
      ++ pyq "; stroke-width: 2; fill: none; }";
    pyq "    </style>";
    pyq "    ";
    pyq "    <!-- 背景 -->";
    pyq "    <rect width=~" ++ str_of_int width ++ pyq "~ height=~" ++ str_of_int height
      ++ pyq "~ fill=~" ++ colors.background ++ pyq "~/>"
  ].

(** The structure substituted when no topic was found. *)
Definition default_topics : list topic :=
  [Topic (py "人工智慧的未來")
     [Subtopic (py "技術發展") [py "機器學習進步"; py "深度學習突破"; py "自然語言處理"];
      Subtopic (py "應用領域") [py "醫療診斷"; py "智能交通"; py "金融科技"]]
     []].

(** A laid-out box: the rectangle and the wrapped lines of its title. *)
Record LayoutBox := Box {
  box_x : pynum; box_y : Z; box_width : pynum; box_height : Z; box_lines : list pystr }.

(** [max(min_width, max(calculate_text_width(line, font_size) for line in
    lines) + pad)]; the inner [max] raises ValueError on no lines. *)
Definition fit_width (lines : list pystr) (font_size min_width pad : Z) : res pynum :=
  match max_floats (List.map (fun line => calculate_text_width line font_size) lines) with
  | None => raise (ValueError (py "max() arg is an empty sequence"))
  | Some m => ok (max_int_num min_width (num_add (PyFloat m) (PyInt pad)))
  end.

Definition main_x : Z := 100.
Definition main_y : Z := height / 2.

(** Root box: [main_title_lines], [title_width], [title_height] and the
    corner of the rectangle. *)
Definition main_box (main_topic : topic) : res LayoutBox :=
  let main_title_lines := wrap_text (t_title main_topic) 300 18 in
  let* title_width := fit_width main_title_lines 18 160 40 in
  let title_height := Z.max 50 (Z.of_nat (length main_title_lines) * 22 + 10) in
  ok (Box (num_sub (PyInt main_x) (num_floordiv2 title_width))
          (main_y - title_height / 2)
          title_width title_height main_title_lines).

(** [branch_start_x = main_x + title_width//2 + 50]. *)
Definition branch_start_x (title_width : pynum) : pynum :=
  num_add (num_add (PyInt main_x) (num_floordiv2 title_width)) (PyInt 50).

(** [branch_spacing = min(150, (height - 200) // total_branches)]. *)
Definition branch_spacing (total_branches : Z) : Z :=
  Z.min 150 ((height - 200) / total_branches).

(** [start_y = main_y - (total_branches - 1) * branch_spacing // 2]. *)
Definition start_y (total_branches : Z) : Z :=
  main_y - (total_branches - 1) * branch_spacing total_branches / 2.

(** [branch_y = start_y + i * branch_spacing]. *)
Definition branch_y (total_branches : Z) (i : nat) : Z :=
  start_y total_branches + Z.of_nat i * branch_spacing total_branches.

(** Subtopic box number [i] of [total_branches]. *)
Definition branch_box (title_width : pynum) (total_branches : Z) (i : nat)
    (sub : subtopic) : res LayoutBox :=
  let branch_title_lines := wrap_text (s_title sub) 200 14 in
  let* branch_width := fit_width branch_title_lines 14 120 30 in
  let branch_height := Z.max 35 (Z.of_nat (length branch_title_lines) * 18 + 10) in
  ok (Box (branch_start_x title_width)
          (branch_y total_branches i - branch_height / 2)
          branch_width branch_height branch_title_lines).

(** [item_start_x = branch_start_x + branch_width + 30]. *)
Definition item_start_x (bsx branch_width : pynum) : pynum :=
  num_add (num_add bsx branch_width) (PyInt 30).

(** [item_y = branch_y + (j - 2) * 30]. *)
Definition item_y (by_ : Z) (j : nat) : Z := by_ + (Z.of_nat j - 2) * 30.

(** Item box number [j] of the subtopic whose row is at [by_]. *)
Definition item_box (isx : pynum) (by_ : Z) (j : nat) (it : pystr) : res LayoutBox :=
  let item_lines := wrap_text it 150 11 in
  let* item_width := fit_width item_lines 11 100 20 in
  let item_height := Z.max 20 (Z.of_nat (length item_lines) * 14 + 6) in
  ok (Box isx (item_y by_ j - item_height / 2) item_width item_height item_lines).

Section Renderer.

(** [repr] of a [float], which is how an f-string formats one. It is part
    of the Python run time, not of this program, and is left open: nothing
    below depends on which digits it prints. *)
Variable repr_float : float -> pystr.

(** [f"{a}"] for a number. *)
Definition str_num (a : pynum) : pystr :=
  match a with
  | PyInt n => str_of_int n
  | PyFloat f => repr_float f
  end.

Definition svg_main_box (b : LayoutBox) : pystr :=
  [NL] ++ text_lines [
    pyq "    <!-- 主標題 -->";
    pyq "    <rect x=~" ++ str_num (box_x b) ++ pyq "~ y=~" ++ str_of_int (box_y b) ++ pyq "~ ";
    pyq "          width=~" ++ str_num (box_width b) ++ pyq "~ height=~"
      ++ str_of_int (box_height b) ++ pyq "~ ";
    pyq "          fill=~url(#mainGrad)~ rx=~25~ filter=~url(#shadow)~/>"
  ].

Definition svg_main_title (main_title_lines : list pystr) : pystr :=
  concat (imap (fun i line =>
    let line_y :=
      main_y - (Z.of_nat (length main_title_lines) - 1) * 11 + Z.of_nat i * 22 in
    pyq "<text x=~" ++ str_of_int main_x ++ pyq "~ y=~" ++ str_of_int (line_y + 5)
      ++ pyq "~ text-anchor=~middle~ class=~main-title~>" ++ line ++ pyq "</text>"
      ++ [NL]) main_title_lines).

Definition svg_branch_connector (title_width bsx : pynum) (by_ : Z) : pystr :=
  [NL] ++ text_lines [
    pyq "    <path d=~M " ++ str_num (num_add (PyInt main_x) (num_floordiv2 title_width))
      ++ [SP] ++ str_of_int main_y
      ++ pyq " Q " ++ str_num (num_sub bsx (PyInt 20)) ++ [SP] ++ str_of_int main_y
      ++ [SP] ++ str_num (num_sub bsx (PyInt 20)) ++ [SP] ++ str_of_int by_
      ++ pyq "~ class=~connector~/>";
    pyq "    <line x1=~" ++ str_num (num_sub bsx (PyInt 20)) ++ pyq "~ y1=~" ++ str_of_int by_
      ++ pyq "~ x2=~" ++ str_num bsx ++ pyq "~ y2=~" ++ str_of_int by_
      ++ pyq "~ class=~connector~/>"
  ].

Definition svg_branch_box (b : LayoutBox) : pystr :=
  [NL] ++ text_lines [
    pyq "    <rect x=~" ++ str_num (box_x b) ++ pyq "~ y=~" ++ str_of_int (box_y b) ++ pyq "~ ";
    pyq "          width=~" ++ str_num (box_width b) ++ pyq "~ height=~"
      ++ str_of_int (box_height b) ++ pyq "~ ";
    pyq "          fill=~url(#branchGrad)~ rx=~17~ filter=~url(#shadow)~/>"
  ].

Definition svg_branch_title (bsx branch_width : pynum) (by_ : Z)
    (branch_title_lines : list pystr) : pystr :=
  concat (imap (fun j line =>
    let line_y :=
      by_ - (Z.of_nat (length branch_title_lines) - 1) * 9 + Z.of_nat j * 18 in
    pyq "<text x=~" ++ str_num (num_add bsx (num_floordiv2 branch_width))
      ++ pyq "~ y=~" ++ str_of_int (line_y + 4)
      ++ pyq "~ text-anchor=~middle~ class=~branch-title~>" ++ line ++ pyq "</text>"
      ++ [NL]) branch_title_lines).

Definition svg_item_connector (bsx branch_width isx : pynum) (by_ iy : Z) : pystr :=
  [NL] ++ text_lines [
    pyq "    <line x1=~" ++ str_num (num_add bsx branch_width) ++ pyq "~ y1=~"
      ++ str_of_int by_ ++ pyq "~ x2=~" ++ str_num isx ++ pyq "~ y2=~" ++ str_of_int iy
      ++ pyq "~ class=~connector~ stroke-width=~1~/>"
  ].

Definition svg_item_box (b : LayoutBox) : pystr :=
  [NL] ++ text_lines [
    pyq "    <rect x=~" ++ str_num (box_x b) ++ pyq "~ y=~" ++ str_of_int (box_y b) ++ pyq "~ ";
    pyq "          width=~" ++ str_num (box_width b) ++ pyq "~ height=~"
      ++ str_of_int (box_height b) ++ pyq "~ ";
    pyq "          fill=~" ++ colors.level3 ++ pyq "~ stroke=~" ++ colors.level2
      ++ pyq "~ stroke-width=~1~ rx=~10~ opacity=~0.9~/>"
  ].

Definition svg_item_text (isx : pynum) (iy : Z) (item_lines : list pystr) : pystr :=
  concat (imap (fun k line =>
    let line_y := iy - (Z.of_nat (length item_lines) - 1) * 7 + Z.of_nat k * 14 in
    pyq "<text x=~" ++ str_num (num_add isx (PyInt 10)) ++ pyq "~ y=~"
      ++ str_of_int (line_y + 3) ++ pyq "~ class=~item-text~>" ++ line ++ pyq "</text>"
      ++ [NL]) item_lines).

(** One iteration of the loop over [subtopic['items'][:5]]. *)
Definition render_item (bsx branch_width : pynum) (by_ : Z) (j : nat) (it : pystr)
    : res pystr :=
  let isx := item_start_x bsx branch_width in
  let* b := item_box isx by_ j it in
  ok (svg_item_connector bsx branch_width isx by_ (item_y by_ j)
      ++ svg_item_box b
      ++ svg_item_text isx (item_y by_ j) (box_lines b)).

(** One iteration of the loop over [main_topic['subtopics']]. *)
Definition render_branch (title_width : pynum) (total_branches : Z) (i : nat)
    (sub : subtopic) : res pystr :=
  let by_ := branch_y total_branches i in
  let bsx := branch_start_x title_width in
  let* b := branch_box title_width total_branches i sub in
  let* its :=
    collect (imap (render_item bsx (box_width b) by_) (take 5 (s_items sub))) in
  ok (svg_branch_connector title_width bsx by_
      ++ svg_branch_box b
      ++ svg_branch_title bsx (box_width b) by_ (box_lines b)
      ++ its).

(** What is drawn for the topic list left by the Tree Builder: the default
    structure replaces an empty list, and only the first topic is drawn. *)
Definition render_topics (topics : list topic) : res pystr :=
  let main_topics := match topics with [] => default_topics | _ :: _ => topics end in
  match main_topics with
  | [] => ok (svg_header ++ py "</svg>")
  | main_topic :: _ =>
    let* b := main_box main_topic in
    let total_branches := Z.of_nat (length (subtopics main_topic)) in
    let* branches :=
      if 0 <? total_branches
      then collect (imap (render_branch (box_width b) total_branches)
                         (subtopics main_topic))
      else ok [] in
    ok (svg_header ++ svg_main_box b ++ svg_main_title (box_lines b) ++ branches
        ++ py "</svg>")
  end.

(** [create_simple_svg_mindmap(structure)]. *)
Definition create_simple_svg_mindmap (structure : list node) : res pystr :=
  render_topics (main_topics (build_topics structure)).

End Renderer.

(** ** The collaborators of the request handlers

    [ROOMS], [topics] and [votes] are the stores of [participants_api];
    [ai_client] and [transparent_fusion] are the AI collaborators. The
    handlers read all of them from the world they run in. *)

(** A room dict: the keys the handlers read, each possibly absent. *)
Record Room := { room_title : option pystr; workspace_slug : option pystr }.

(** A comment dict. *)
Record Comment := {
  comment_id : option pystr; nickname : option pystr; content : option pystr }.

(** A topic dict of the store (not the [topic] of the Tree Builder). *)
Record TopicData := {
  room_id : pystr; topic_name : option pystr; comments : option (list Comment) }.

(** The voters of one comment: the lists under ['good'] and ['bad']. *)
Record Votes := { good : list pystr; bad : list pystr }.

(** [datetime.now()]. *)
Record datetime := {
  year : Z; month : Z; day : Z; hour : Z; minute : Z; second : Z }.

Record World := {
  ROOMS : gmap pystr Room;
  (** [topics.items()], in insertion order *)
  topics : list (pystr * TopicData);
  votes : gmap pystr Votes;
  (** [ai_client.ensure_workspace_exists(room_code, title)] *)
  ensure_workspace_exists : pystr -> pystr -> res pystr;
  (** [transparent_fusion.process_request(prompt, workspace_slug,
      task_type="mindmap")] *)
  process_request : pystr -> pystr -> res pystr;
  (** the files that exist, with their content *)
  files : pystr -> option pystr;
  (** the name [NamedTemporaryFile] picks *)
  tmp_name : pystr;
  now : datetime
}.

(** [d.get(key, default)] on an optional entry. *)
Definition get {A} (entry : option A) (default : A) : A :=
  match entry with Some a => a | None => default end.

(** ** Prompt Builder *)

(** What the loop over [topic_data["comments"]] appends for one comment. *)
Definition prompt_comment (w : World) (comment : Comment) : pystr :=
  let nickname := get (nickname comment) (py "匿名") in
  let content := get (content comment) [] in
  let tally := get (comment_id comment ≫= fun k => votes w !! k) (Build_Votes [] []) in
  let good_votes := Z.of_nat (length (good tally)) in
  let bad_votes := Z.of_nat (length (bad tally)) in
  py "- " ++ nickname ++ py ": " ++ content ++ py " (👍" ++ str_of_int good_votes
    ++ py " 👎" ++ str_of_int bad_votes ++ py ")" ++ [NL].

(** What the loop over [room_topics] appends for one topic. *)
Definition prompt_topic (w : World) (topic_data : TopicData) : pystr :=
  let topic_name := get (topic_name topic_data) (py "未命名主題") in
  py "## 主題: " ++ topic_name ++ [NL; NL]
  ++ match comments topic_data with
     | Some (c :: cs) =>
       py "留言:" ++ [NL] ++ concat (List.map (prompt_comment w) (c :: cs)) ++ [NL]
     | _ => []
     end.

Definition prompt_instructions : pystr :=
  [NL] ++ text_lines [
    py "請根據以上內容,生成一個結構化的心智圖 Markdown 格式:";
    [];
    py "要求:";
    py "1. 使用 # 作為主標題 (主題列表)";
    py "2. 使用 ## 作為次級標題 (各個討論主題)";
    py "3. 使用 - 作為要點列表 (重要觀點、共識、分歧點)";
    py "4. 內容要精煉、結構清晰";
    py "5. 突出重點和共識";
    py "6. 標注有爭議的觀點";
    py "7. 使用繁體中文";
    [];
    py "範例格式:";
    py "# 討論主題名稱";
    py "## 主題一";
    py "- 主要觀點1";
    py "- 主要觀點2";
    py "- 共識: xxx";
    py "## 主題二  ";
    py "- 重點1";
    py "- 重點2";
    py "- 分歧: xxx";
    [];
    py "請直接輸出 Markdown 格式,不要任何前綴說明:"
  ].

(** [build_mindmap_prompt(room_code)]; [None] is Python's [None]. *)
Definition build_mindmap_prompt (w : World) (room_code : pystr) : option pystr :=
  match ROOMS w !! room_code with
  | None => None
  | Some room_data =>
    let prompt := py "請為以下討論室的內容生成一個結構化的心智圖 Markdown 格式總結。" in
    let room_topics :=
      List.filter (fun '(t_id, t) => bool_decide (room_id t = room_code)) (topics w) in
    match room_topics with
    | [] => Some (prompt ++ py "目前討論室還沒有任何主題。" ++ [NL])
    | _ :: _ =>
      let prompt := prompt ++ py "討論主題與內容:" ++ [NL; NL] in
      let prompt :=
        fold_left (fun prompt '(topic_id, topic_data) => prompt ++ prompt_topic w topic_data)
                  room_topics prompt in
      Some (prompt ++ prompt_instructions)
    end
  end.

(** [if not prompt]: [None] and the empty text are both false. *)
Definition usable_prompt (prompt : option pystr) : option pystr :=
  match prompt with
  | Some (c :: p) => Some (c :: p)
  | _ => None
  end.

(** ** Request Orchestrator *)

(** The request body: [MindMapRequest]. *)
Record MindMapRequest := {
  room_code : option pystr; custom_content : option pystr }.

(** An optional text that is present and non-empty. *)
Definition nonempty (s : option pystr) : option pystr :=
  match s with
  | Some (c :: r) => Some (c :: r)
  | _ => None
  end.

(** [request and request.field]: the field of a request that is there, when
    it is a non-empty text. *)
Definition request_field (field : MindMapRequest -> option pystr)
    (request : option MindMapRequest) : option pystr :=
  match request with
  | Some r => nonempty (field r)
  | None => None
  end.

(** [lines[1:-1]]. *)
Definition drop_first_last {A} (l : list A) : list A :=
  take (length l - 2) (drop 1 l).

(** The clean-up both handlers apply to the text the AI returned:
[[
    markdown_content = markdown_content.strip()
    if markdown_content.startswith('```'):
        lines = markdown_content.split('\n')
        markdown_content = '\n'.join(lines[1:-1]) if len(lines) > 2 else markdown_content
]] *)
Definition strip_code_fence (markdown_content : pystr) : pystr :=
  let markdown_content := strip markdown_content in
  if startswith (py "```") markdown_content then
    let lines := split_on NL markdown_content in
    if (2 <? length lines)%nat then join [NL] (drop_first_last lines)
    else markdown_content
  else markdown_content.

(** The workspace both handlers use for an existing room: the one the room
    records, or else a new one, which is recorded in the room:
[[
    workspace_slug = room_data.get('workspace_slug')
    if not workspace_slug:
        workspace_slug = await ai_client.ensure_workspace_exists(
            room_code, room_data.get('title', f'討論室-{room_code}'))
        ROOMS[room_code]['workspace_slug'] = workspace_slug
]]
    The second component is [ROOMS] afterwards. *)
Definition resolve_workspace (w : World) (room_code : pystr) (room_data : Room)
    : res pystr * gmap pystr Room :=
  match nonempty (workspace_slug room_data) with
  | Some workspace_slug => (ok workspace_slug, ROOMS w)
  | None =>
    match ensure_workspace_exists w room_code
            (get (room_title room_data) (py "討論室-" ++ room_code)) with
    | inl e => (raise e, ROOMS w)
    | inr workspace_slug =>
      (ok workspace_slug,
       alter (fun r => Build_Room (room_title r) (Some workspace_slug))
             room_code (ROOMS w))
    end
  end.

(** The AI step both handlers run for an existing room: resolve the
    workspace, ask for the completion and clean it up. *)
Definition ai_markdown (w : World) (room_code prompt : pystr) (room_data : Room)
    : res pystr * gmap pystr Room :=
  let '(slug, rooms) := resolve_workspace w room_code room_data in
  (let* workspace_slug := slug in
   let* markdown_content := process_request w prompt workspace_slug in
   ok (strip_code_fence markdown_content),
   rooms).

(** [datetime.now().strftime("%Y%m%d_%H%M%S")]. *)
Definition strftime (d : datetime) : pystr :=
  zero_pad 4 (year d) ++ zero_pad 2 (month d) ++ zero_pad 2 (day d) ++ py "_"
  ++ zero_pad 2 (hour d) ++ zero_pad 2 (minute d) ++ zero_pad 2 (second d).

(** What [generate_mindmap] returns: the [FileResponse] and the content of
    the temporary file it serves. *)
Record FileResponse := {
  path : pystr; media_type : pystr; filename : pystr; body : pystr }.

(** What [preview_mindmap_markdown] returns. *)
Record Preview := {
  p_room_code : pystr; p_room_title : option pystr; markdown : pystr;
  prompt_used : pystr }.

Definition possible_paths : list pystr :=
  [py "frontend/public/AIresult.txt";
   py "/app/frontend/public/AIresult.txt";
   py "../frontend/public/AIresult.txt"].

Definition default_markdown : pystr :=
  join [NL] [
    py "# AI心智圖示例";
    py "## 人工智慧應用";
    py "- 機器學習";
    py "- 深度學習";
    py "- 自然語言處理";
    py "## 技術發展";
    py "- 神經網路";
    py "- 大型語言模型";
    py "- 電腦視覺"
  ].

Section Orchestrator.

Variable repr_float : float -> pystr.

(** The first part of the [try] block of [generate_mindmap]: the value of
    [markdown_content] when parsing starts, by the precedence room code,
    custom content, file, built-in example. For a room, an exception of the
    AI step is caught and the title line takes its place. *)
Definition markdown_source (w : World) (request : option MindMapRequest)
    : res pystr * gmap pystr Room :=
  match request_field room_code request with
  | Some room_code =>
    match ROOMS w !! room_code with
    | None => (raise (HTTPException 404 (py "找不到討論室: " ++ room_code)), ROOMS w)
    | Some room_data =>
      match usable_prompt (build_mindmap_prompt w room_code) with
      | None => (raise (HTTPException 400 (py "無法構建心智圖 prompt")), ROOMS w)
      | Some prompt =>
        let '(r, rooms) := ai_markdown w room_code prompt room_data in
        (try_except r (fun e =>
           match rooms !! room_code with
           | Some room => ok (py "# " ++ get (room_title room) (py "討論總結"))
           | None => raise (OtherException (py "'" ++ room_code ++ py "'"))
           end),
         rooms)
      end
    end
  | None =>
    match request_field custom_content request with
    | Some custom_content => (ok custom_content, ROOMS w)
    | None =>
      (ok (get (head (omap (files w) possible_paths)) default_markdown), ROOMS w)
    end
  end.

(** The rest of the [try] block: parse, render, write the temporary file
    and build the response. *)
Definition respond (w : World) (markdown_content : pystr) : res FileResponse :=
  let structure := parse_markdown_to_simple_structure markdown_content in
  match structure with
  | [] => raise (HTTPException 400 (py "無法解析markdown內容"))
  | _ :: _ =>
    let* svg_content := create_simple_svg_mindmap repr_float structure in
    ok {| path := tmp_name w;
          media_type := py "image/svg+xml";
          filename := py "mindmap_" ++ strftime (now w) ++ py ".svg";
          body := svg_content |}
  end.

(** [generate_mindmap(request)]: the [try] block under its two handlers,
    [except HTTPException: raise] and [except Exception as e: raise
    HTTPException(500, ...)]. The second component is [ROOMS] afterwards. *)
Definition generate_mindmap (w : World) (request : option MindMapRequest)
    : res FileResponse * gmap pystr Room :=
  let '(md, rooms) := markdown_source w request in
  (match (let* markdown_content := md in respond w markdown_content) with
   | inl (HTTPException status_code detail) => raise (HTTPException status_code detail)
   | inl e => raise (HTTPException 500 (py "生成心智圖時發生錯誤: " ++ str_of_exn e))
   | inr response => ok response
   end,
   rooms).

(** The [try] block of [preview_mindmap_markdown]. *)
Definition preview_body (w : World) (request : MindMapRequest)
    : res Preview * gmap pystr Room :=
  match nonempty (room_code request) with
  | None => (raise (HTTPException 400 (py "需要提供 room_code")), ROOMS w)
  | Some room_code =>
    match ROOMS w !! room_code with
    | None => (raise (HTTPException 404 (py "找不到討論室: " ++ room_code)), ROOMS w)
    | Some room_data =>
      match usable_prompt (build_mindmap_prompt w room_code) with
      | None => (raise (HTTPException 400 (py "無法構建心智圖 prompt")), ROOMS w)
      | Some prompt =>
        let '(r, rooms) := ai_markdown w room_code prompt room_data in
        (let* markdown_content := r in
         ok {| p_room_code := room_code;
               p_room_title := room_title room_data;
               markdown := markdown_content;
               prompt_used := prompt |},
         rooms)
      end
    end
  end.

(** [preview_mindmap_markdown(request)]: the [try] block under its only
    handler, [except Exception as e: raise HTTPException(500, ...)], which
    also receives the [HTTPException]s the block raises itself. *)
Definition preview_mindmap_markdown (w : World) (request : MindMapRequest)
    : res Preview * gmap pystr Room :=
  let '(r, rooms) := preview_body w request in
  (try_except r (fun e =>
     raise (HTTPException 500 (py "預覽失敗: " ++ str_of_exn e))),
   rooms).

End Orchestrator.

(** ** What the properties are stated with *)

(** The status a handler's outcome has on the wire: 200 for a returned
    value, the status code of a raised [HTTPException]. *)
Definition http_status {A} (r : res A) : option Z :=
  match r with
  | inr _ => Some 200
  | inl (HTTPException status_code _) => Some status_code
  | inl _ => None
  end.

(** The computation returns a value: it does not raise. *)
Definition returns {A} (r : res A) : Prop := exists a, r = inr a.


(** A heading node of level 1: the node that opens a topic. *)
Definition is_topic_heading (n : node) : bool :=
  match type n with heading => level n =? 1 | item => false end.

(** [needle in hay]. *)
Fixpoint contains (needle hay : pystr) : bool :=
  startswith needle hay
  || match hay with
     | [] => false
     | _ :: hay' => contains needle hay'
     end.

(** *** The loop of [wrap_text] *)

(** The words a loop state holds: those of the closed lines, then those of
    the line being filled. *)
Definition state_words (st : list pystr * pystr) : list pystr :=
  concat (List.map split st.1) ++ split st.2.

(** A line as the loop builds them: some words joined by single spaces,
    within the budget unless it is one word. *)
Definition packed (max_width font_size : Z) (l : pystr) : Prop :=
  split l <> [] /\ l = join [SP] (split l)
  /\ (fits max_width font_size l = true \/ is_word l).

(** A line was closed only because the next word did not fit on it. *)
Definition closed_by_overflow (max_width font_size : Z) (a b : pystr) : Prop :=
  exists w rest,
    split b = w :: rest /\ fits max_width font_size (a ++ [SP] ++ w) = false.

(** Every two consecutive lines are in that relation. *)
Fixpoint greedy (max_width font_size : Z) (ls : list pystr) : Prop :=
  match ls with
  | a :: (b :: _) as rest =>
    closed_by_overflow max_width font_size a b /\ greedy max_width font_size rest
  | _ => True
  end.

(** The lines a state holds, with the one being filled last. *)
Definition state_lines (st : list pystr * pystr) : list pystr :=
  if truthy st.2 then st.1 ++ [st.2] else st.1.

(** The loop invariant behind the greedy packing. *)
Definition wrap_inv (max_width font_size : Z) (st : list pystr * pystr) : Prop :=
  Forall (packed max_width font_size) (state_lines st)
  /\ greedy max_width font_size (state_lines st)
  /\ (st.2 = [] -> st.1 = []).

(** *** Concrete inputs *)

(** A float formatter to run the renderer with. *)
Definition repr_float_sample : float -> pystr := fun _ => py "0.0".

Definition sample_room : Room :=
  {| room_title := Some (py "Roadmap"); workspace_slug := Some (py "ws-roadmap") |}.

(** A world with the one room R1, one topic and one comment; [ai] is what
    the completion call does. *)
Definition sample_world (ai : res pystr) : World :=
  {| ROOMS := {[ py "R1" := sample_room ]};
     topics :=
       [(py "t1",
         {| room_id := py "R1"; topic_name := Some (py "Scope");
            comments :=
              Some [{| comment_id := Some (py "c1"); nickname := Some (py "Ann");
                       content := Some (py "ship it") |}] |})];
     votes := {[ py "c1" := {| good := [py "u1"]; bad := [] |} ]};
     ensure_workspace_exists := fun _ _ => ok (py "ws-new");
     process_request := fun _ _ => ai;
     files := fun _ => None;
     tmp_name := py "/tmp/tmpq1w2e3.svg";
     now := {| year := 2025; month := 3; day := 9;
               hour := 14; minute := 5; second := 7 |} |}.

Definition sample_prompt : pystr :=
  get (build_mindmap_prompt (sample_world (ok [])) (py "R1")) [].


(** *** Outline nodes and trees *)

(** A node as the parser makes them: a heading has a level of at least 1,
    an item has level 0, and the title has no white space at either end. *)
Definition node_wf (n : node) : Prop :=
  match type n with
  | heading => 1 <= level n
  | item => level n = 0
  end
  /\ strip (title n) = title n.

Definition is_item_node (n : node) : bool :=
  match type n with heading => false | item => true end.

(** A heading node of level 2: the node that opens a subtopic. *)
Definition is_subtopic_heading (n : node) : bool :=
  match type n with heading => level n =? 2 | item => false end.

(** The outline from its first heading of level 1 on. *)
Fixpoint from_first_topic (structure : list node) : list node :=
  match structure with
  | [] => []
  | n :: rest => if is_topic_heading n then structure else from_first_topic rest
  end.

(** The cursor of the Tree Builder points at the last topic, and is
    [None] while there is none. *)
Definition cursor_at_last (st : builder) : Prop :=
  current_topic st
  = match main_topics st with
    | [] => None
    | _ :: _ => Some (length (main_topics st) - 1)%nat
    end.

(** The items a topic holds: its loose items and those of its subtopics. *)
Definition topic_items (t : topic) : nat :=
  (length (items t) + sum_list_with (fun s => length (s_items s)) (subtopics t))%nat.

Definition total_items (ts : list topic) : nat := sum_list_with topic_items ts.

Definition total_subtopics (ts : list topic) : nat :=
  sum_list_with (fun t => length (subtopics t)) ts.

(** What the renderer shows of a topic: its title and, of each subtopic,
    the title and the first five items. *)
Definition shown_subtopic (s : subtopic) : subtopic :=
  Subtopic (s_title s) (take 5 (s_items s)).

Definition shown (t : topic) : topic :=
  Topic (t_title t) (List.map shown_subtopic (subtopics t)) [].

(** A world like [sample_world] whose room R1 has no workspace yet, with a
    second room and a topic of that room; [ensure] is what
    [ensure_workspace_exists] does. *)
Definition two_room_world (ensure : res pystr) (ai : res pystr) : World :=
  {| ROOMS :=
       {[ py "R1" := {| room_title := Some (py "Roadmap"); workspace_slug := None |};
          py "R2" := {| room_title := Some (py "Budget");
                        workspace_slug := Some (py "ws-budget") |} ]};
     topics :=
       [(py "t9",
         {| room_id := py "R2"; topic_name := Some (py "Costs"); comments := None |});
        (py "t1",
         {| room_id := py "R1"; topic_name := Some (py "Scope");
            comments :=
              Some [{| comment_id := Some (py "c1"); nickname := Some (py "Ann");
                       content := Some (py "ship it") |}] |})];
     votes := {[ py "c1" := {| good := [py "u1"]; bad := [] |} ]};
     ensure_workspace_exists := fun _ _ => ensure;
     process_request := fun _ _ => ai;
     files := fun _ => None;
     tmp_name := py "/tmp/tmpa9b8c7.svg";
     now := {| year := 2025; month := 11; day := 30;
               hour := 8; minute := 0; second := 59 |} |}.

(** The same world after a request, with the [ROOMS] the request left. *)
Definition with_rooms (rooms : gmap pystr Room) (w : World) : World :=
  {| ROOMS := rooms; topics := topics w; votes := votes w;
     ensure_workspace_exists := ensure_workspace_exists w;
     process_request := process_request w;
     files := files w; tmp_name := tmp_name w; now := now w |}.

(** * Checks of the embedding on concrete inputs *)

Example py_ascii : py "# A" = [35; 32; 65]%N.
Proof. reflexivity. Qed.

Example py_cjk : py "人工" = [20154; 24037]%N.
Proof. reflexivity. Qed.

Example py_emoji : py "👍" = [128077]%N.
Proof. reflexivity. Qed.

Example split_example : split (py "  ab  c d ") = [py "ab"; py "c"; py "d"].
Proof. reflexivity. Qed.

Example split_on_example : split_on NL (py "a

b") = [py "a"; []; py "b"].
Proof. reflexivity. Qed.

Example str_of_int_examples :
  str_of_int 0 = py "0" /\ str_of_int 325 = py "325" /\ str_of_int (-10) = py "-10".
Proof. repeat split; reflexivity. Qed.

Example f0_9_is_nine_tenths :
  SFdiv prec emax (float_of_int 9) (float_of_int 10) = f0_9.
Proof. vm_compute. reflexivity. Qed.

Example f0_6_is_six_tenths :
  SFdiv prec emax (float_of_int 6) (float_of_int 10) = f0_6.
Proof. vm_compute. reflexivity. Qed.

Example floordiv2_examples :
  num_floordiv2 (PyInt 160) = PyInt 80
  /\ num_floordiv2 (PyInt (-3)) = PyInt (-2)
  /\ num_floordiv2 (PyFloat (fadd (fmul (float_of_int 126) f0_9) (float_of_int 59)))
     = PyFloat (float_of_int 86).
Proof. vm_compute. repeat split; reflexivity. Qed.

Example parse_example :
  parse_markdown_to_simple_structure (py "# A
## B
- c")
  = [Node 1 (py "A") heading; Node 2 (py "B") heading; Node 0 (py "c") item].
Proof. reflexivity. Qed.

Example parse_empty : parse_markdown_to_simple_structure [] = [].
Proof. reflexivity. Qed.

Example build_example :
  main_topics (build_topics (parse_markdown_to_simple_structure (py "# A
## B
- c")))
  = [Topic (py "A") [Subtopic (py "B") [py "c"]] []].
Proof. reflexivity. Qed.

Example width_examples :
  calculate_text_width (py "Topic") 18 = float_of_int 54
  /\ calculate_text_width [] 18 = S754_zero false
  /\ float_floor (calculate_text_width (py "人工智慧的未來") 18) = Some 113.
Proof. vm_compute. repeat split; reflexivity. Qed.

Example wrap_example :
  wrap_text (py "the quick brown fox jumps over the lazy dog") 200 14
  = [py "the quick brown fox"; py "jumps over the lazy dog"].
Proof. vm_compute. reflexivity. Qed.

Example sample_prompt_text :
  sample_prompt
  = py "請為以下討論室的內容生成一個結構化的心智圖 Markdown 格式總結。討論主題與內容:

## 主題: Scope

留言:
- Ann: ship it (👍1 👎0)

" ++ prompt_instructions.
Proof. vm_compute. reflexivity. Qed.

Example strftime_example :
  strftime (now (sample_world (ok []))) = py "20250309_140507".
Proof. vm_compute. reflexivity. Qed.

Example fence_examples :
  strip_code_fence (py "```
# A
```") = py "# A"
  /\ strip_code_fence (py "```
# A") = py "```
# A"
  /\ strip_code_fence (py "```md
# A
- b
not a fence") = py "# A
- b".
Proof. vm_compute. repeat split; reflexivity. Qed.

(** * Properties *)

(** ** Text: [split], [strip], [split_on] *)

Lemma cons_word_app w ws ws' : cons_word w ws ++ ws' = cons_word w (ws ++ ws').
Proof. destruct w; reflexivity. Qed.

Lemma split_go_app_space a c b :
  isspace c = true ->
  split_go (a ++ c :: b) = ((split_go a).1, (split_go a).2 ++ split b).
Proof.
  intros Hc. induction a as [|d a IH]; simpl.
  - rewrite Hc. unfold split. destruct (split_go b); reflexivity.
  - rewrite IH. destruct (split_go a) as [w ws]; simpl.
    destruct (isspace d); simpl; [|reflexivity].
    now rewrite cons_word_app.
Qed.

Lemma split_app_space a c b :
  isspace c = true -> split (a ++ c :: b) = split a ++ split b.
Proof.
  intros Hc. unfold split at 1 2. rewrite split_go_app_space by assumption.
  destruct (split_go a) as [w ws]; simpl. now rewrite cons_word_app.
Qed.

Lemma split_go_no_space w :
  Forall (fun c => isspace c = false) w -> split_go w = (w, []).
Proof.
  induction 1 as [|c w Hc _ IH]; simpl; [reflexivity|].
  now rewrite IH, Hc.
Qed.

Lemma split_word w : is_word w -> split w = [w].
Proof.
  intros [Hne Hw]. unfold split. rewrite split_go_no_space by assumption.
  destruct w; [contradiction|reflexivity].
Qed.

Lemma split_go_words s :
  Forall (fun c => isspace c = false) (split_go s).1 /\ Forall is_word (split_go s).2.
Proof.
  induction s as [|c s [IHw IHws]]; simpl; [split; constructor|].
  destruct (split_go s) as [w ws]; simpl in *.
  destruct (isspace c) eqn:Hc; simpl.
  - split; [constructor|]. destruct w as [|d w]; simpl; [assumption|].
    constructor; [|assumption]. split; [discriminate|assumption].
  - split; [constructor; assumption|assumption].
Qed.

Lemma split_words s : Forall is_word (split s).
Proof.
  unfold split. destruct (split_go_words s) as [Hw Hws].
  destruct (split_go s) as [w ws]; simpl in *.
  destruct w as [|d w]; simpl; [assumption|].
  constructor; [|assumption]. split; [discriminate|assumption].
Qed.

Lemma split_nil : split [] = [].
Proof. reflexivity. Qed.

Lemma join_snoc sep (ws : list pystr) w :
  ws <> [] -> join sep (ws ++ [w]) = join sep ws ++ sep ++ w.
Proof.
  induction ws as [|a ws IH]; [contradiction|]. intros _.
  destruct ws as [|b ws]; [reflexivity|].
  change (join sep ((a :: b :: ws) ++ [w])) with (a ++ sep ++ join sep ((b :: ws) ++ [w])).
  rewrite IH by discriminate.
  change (join sep (a :: b :: ws)) with (a ++ sep ++ join sep (b :: ws)).
  now rewrite <- !app_assoc.
Qed.

Lemma split_join_space (ls : list pystr) :
  split (join [SP] ls) = concat (List.map split ls).
Proof.
  induction ls as [|a ls IH]; [reflexivity|].
  destruct ls as [|b ls].
  - simpl. now rewrite app_nil_r.
  - change (join [SP] (a :: b :: ls)) with (a ++ SP :: join [SP] (b :: ls)).
    rewrite split_app_space by reflexivity. now rewrite IH.
Qed.

Lemma dropwhile_snoc p s c :
  p c = false -> dropwhile p (s ++ [c]) = dropwhile p s ++ [c].
Proof.
  intros Hc. induction s as [|d s IH]; simpl; [now rewrite Hc|].
  destruct (p d); [assumption|reflexivity].
Qed.

Lemma rstrip_cons c s : isspace c = false -> exists r, rstrip (c :: s) = c :: r.
Proof.
  intros Hc. unfold rstrip. simpl rev.
  rewrite dropwhile_snoc by assumption. rewrite rev_app_distr. simpl. eauto.
Qed.



(** ** Text Metrics: [wrap_text] *)

Section Wrap.

Variables max_width font_size : Z.

Local Abbreviation fit := (fits max_width font_size).
Local Abbreviation step := (wrap_step max_width font_size).
Local Abbreviation packed := (packed max_width font_size).
Local Abbreviation closed_by_overflow := (closed_by_overflow max_width font_size).
Local Abbreviation greedy := (greedy max_width font_size).
Local Abbreviation wrap_inv := (wrap_inv max_width font_size).

Lemma isspace_SP : isspace SP = true.
Proof. reflexivity. Qed.

Lemma split_test_line cur word :
  is_word word ->
  split (cur ++ (if truthy cur then [SP] else []) ++ word) = split cur ++ [word].
Proof.
  intros Hw. destruct cur as [|c cur]; simpl truthy; cbv iota.
  - simpl. now apply split_word.
  - change ((c :: cur) ++ [SP] ++ word) with ((c :: cur) ++ SP :: word).
    rewrite (split_app_space (c :: cur) SP word isspace_SP).
    now rewrite (split_word word).
Qed.

Lemma state_words_lines st :
  concat (List.map split (state_lines st)) = state_words st.
Proof.
  destruct st as [ls cur]. unfold state_lines, state_words; simpl.
  destruct cur as [|c cur]; simpl truthy; cbv iota.
  - rewrite split_nil. now rewrite app_nil_r.
  - rewrite map_app, concat_app. simpl. now rewrite app_nil_r.
Qed.

Lemma wrap_step_words st word :
  is_word word -> state_words (step st word) = state_words st ++ [word].
Proof.
  intros Hw. destruct st as [ls cur]. unfold wrap_step.
  destruct (fit _) eqn:Hfit.
  - unfold state_words; simpl. rewrite split_test_line by assumption.
    now rewrite app_assoc.
  - unfold state_words at 1. simpl fst. simpl snd.
    rewrite (split_word word) by assumption.
    f_equal. apply (state_words_lines (ls, cur)).
Qed.

Lemma wrap_loop_words words st :
  Forall is_word words ->
  state_words (fold_left step words st) = state_words st ++ words.
Proof.
  intros Hws. revert st. induction Hws as [|w words Hw _ IH]; intros st; simpl.
  - now rewrite app_nil_r.
  - rewrite IH, wrap_step_words by assumption. now rewrite <- app_assoc.
Qed.

Lemma wrap_text_unfold text :
  fit text = false ->
  wrap_text text max_width font_size
  = match state_lines (fold_left step (split text) ([], [])) with
    | [] => [text]
    | l :: ls => l :: ls
    end.
Proof.
  intros Hfit. unfold wrap_text. rewrite Hfit.
  destruct (fold_left _ _ _) as [ls cur]. unfold state_lines. simpl.
  destruct (if truthy cur then ls ++ [cur] else ls); reflexivity.
Qed.

Lemma wrap_text_words text :
  concat (List.map split (wrap_text text max_width font_size)) = split text.
Proof.
  destruct (fit text) eqn:Hfit.
  - unfold wrap_text. rewrite Hfit. simpl. apply app_nil_r.
  - rewrite wrap_text_unfold by assumption.
    pose proof (wrap_loop_words (split text) ([], []) (split_words text)) as Hw.
    rewrite <- state_words_lines in Hw. simpl in Hw.
    destruct (state_lines _) as [|l ls]; [|exact Hw].
    simpl in *. now rewrite app_nil_r, <- Hw.
Qed.

Lemma wrap_text_nonempty text : wrap_text text max_width font_size <> [].
Proof.
  destruct (fit text) eqn:Hfit.
  - unfold wrap_text. rewrite Hfit. discriminate.
  - rewrite wrap_text_unfold by assumption.
    destruct (state_lines _); discriminate.
Qed.

Lemma packed_word w : is_word w -> packed w.
Proof.
  intros Hw. unfold packed. rewrite (split_word w) by assumption.
  repeat split; [discriminate|now right].
Qed.

Lemma greedy_replace_last ls a a' :
  (forall prev, closed_by_overflow prev a -> closed_by_overflow prev a') ->
  greedy (ls ++ [a]) -> greedy (ls ++ [a']).
Proof.
  intros Himp. induction ls as [|b ls IH]; simpl; [trivial|].
  destruct ls as [|c ls]; simpl in *.
  - intros [H _]. split; [now apply Himp|trivial].
  - intros [H Hg]. split; [assumption|]. now apply IH.
Qed.

Lemma greedy_snoc ls a b :
  greedy (ls ++ [a]) -> closed_by_overflow a b -> greedy ((ls ++ [a]) ++ [b]).
Proof.
  intros Hg Hab. induction ls as [|c ls IH]; simpl in *; [now split|].
  destruct ls as [|d ls]; simpl in *.
  - destruct Hg as [H _]. repeat split; assumption.
  - destruct Hg as [H Hg]. split; [assumption|]. now apply IH.
Qed.

Lemma wrap_step_inv st word : is_word word -> wrap_inv st -> wrap_inv (step st word).
Proof.
  intros Hw (Hpk & Hgr & Hnil). destruct st as [ls cur]. simpl in Hnil.
  unfold wrap_step. unfold state_lines in Hpk, Hgr. simpl in Hpk, Hgr.
  assert (Hword : word <> []) by apply Hw.
  destruct cur as [|c cur]; simpl truthy in *; cbv iota in *.
  - rewrite (Hnil eq_refl) in *. simpl app.
    assert (wrap_inv ([], word)) as Hinv.
    { unfold wrap_inv, state_lines. simpl.
      destruct word; [contradiction|]. simpl.
      split; [|split].
      - constructor; [now apply packed_word|constructor].
      - exact I.
      - discriminate. }
    destruct (fit word); exact Hinv.
  - apply Forall_app in Hpk as [Hls Hcur].
    apply Forall_inv in Hcur. pose proof Hcur as (Hne & Hjoin & _).
    assert (Hsplit : split ((c :: cur) ++ [SP] ++ word) = split (c :: cur) ++ [word]).
    { exact (split_test_line (c :: cur) word Hw). }
    assert (Htr : truthy ((c :: cur) ++ [SP] ++ word) = true) by reflexivity.
    remember ((c :: cur) ++ [SP] ++ word) as test_line eqn:Etl.
    destruct (fit test_line) eqn:Hfit.
    + unfold wrap_inv, state_lines. simpl fst. simpl snd. rewrite Htr.
      split; [|split].
      * apply Forall_app. split; [assumption|]. constructor; [|constructor].
        unfold packed. rewrite Hsplit. repeat split.
        -- now destruct (split (c :: cur)).
        -- rewrite join_snoc by assumption. now rewrite <- Hjoin.
        -- now left.
      * revert Hgr. apply greedy_replace_last.
        intros prev (w & rest & Hs & Hov). exists w, (rest ++ [word]).
        split; [|assumption]. rewrite Hsplit, Hs. reflexivity.
      * intros ->. discriminate.
    + unfold wrap_inv, state_lines. simpl fst. simpl snd.
      assert (Hpw : packed word) by now apply packed_word.
      assert (Hsw : split word = [word]) by now apply split_word.
      destruct word as [|d word]; [contradiction|]. simpl truthy. cbv iota.
      split; [|split].
      * apply Forall_app. split; [|constructor; [assumption|constructor]].
        apply Forall_app. split; [assumption|]. constructor; [|constructor].
        exact Hcur.
      * apply greedy_snoc; [assumption|].
        exists (d :: word), []. split; [assumption|]. now rewrite <- Etl.
      * discriminate.
Qed.

Lemma wrap_loop_inv words st :
  Forall is_word words -> wrap_inv st -> wrap_inv (fold_left step words st).
Proof.
  intros Hws. revert st. induction Hws as [|w words Hw _ IH]; intros st Hst; simpl.
  - assumption.
  - apply IH. now apply wrap_step_inv.
Qed.

Lemma wrap_text_greedy text :
  fit text = false -> split text <> [] ->
  Forall packed (wrap_text text max_width font_size)
  /\ greedy (wrap_text text max_width font_size).
Proof.
  intros Hfit Hne. rewrite wrap_text_unfold by assumption.
  assert (wrap_inv ([], [])) as H0.
  { unfold wrap_inv, state_lines. simpl. repeat split; constructor. }
  pose proof (wrap_loop_inv (split text) _ (split_words text) H0) as (Hpk & Hgr & _).
  pose proof (wrap_loop_words (split text) ([], []) (split_words text)) as Hw.
  rewrite <- state_words_lines in Hw. simpl in Hw.
  destruct (state_lines _) as [|l ls].
  - simpl in Hw. now rewrite <- Hw in Hne.
  - split; assumption.
Qed.

End Wrap.

(** ** Renderer: it always returns a document *)

Lemma fit_width_returns lines font_size min_width pad :
  lines <> [] -> returns (fit_width lines font_size min_width pad).
Proof.
  intros Hne. unfold fit_width. destruct lines as [|l ls]; [contradiction|].
  simpl. eexists. reflexivity.
Qed.

Lemma fit_width_wrap_text text max_width font_size font_size' min_width pad :
  returns (fit_width (wrap_text text max_width font_size) font_size' min_width pad).
Proof. apply fit_width_returns, wrap_text_nonempty. Qed.

Lemma main_box_returns t : returns (main_box t).
Proof.
  unfold main_box.
  destruct (fit_width_wrap_text (t_title t) 300 18 18 160 40) as [w ->].
  simpl. eexists. reflexivity.
Qed.

Lemma branch_box_returns title_width total i sub :
  returns (branch_box title_width total i sub).
Proof.
  unfold branch_box.
  destruct (fit_width_wrap_text (s_title sub) 200 14 14 120 30) as [w ->].
  simpl. eexists. reflexivity.
Qed.

Lemma item_box_returns isx by_ j it : returns (item_box isx by_ j it).
Proof.
  unfold item_box.
  destruct (fit_width_wrap_text it 150 11 11 100 20) as [w ->].
  simpl. eexists. reflexivity.
Qed.

Lemma collect_returns pieces : Forall returns pieces -> returns (collect pieces).
Proof.
  induction 1 as [|p pieces [s ->] _ [r IH]]; simpl.
  - eexists. reflexivity.
  - rewrite IH. simpl. eexists. reflexivity.
Qed.

Lemma Forall_imap_all {A B} (P : B -> Prop) (f : nat -> A -> B) (l : list A) :
  (forall i a, P (f i a)) -> Forall P (imap f l).
Proof.
  revert f. induction l as [|a l IH]; intros f Hf; simpl; constructor.
  - apply Hf.
  - apply IH. intros i b. apply Hf.
Qed.

Section RendererTotal.

Variable repr_float : float -> pystr.

Lemma render_item_returns bsx bw by_ j it :
  returns (render_item repr_float bsx bw by_ j it).
Proof.
  unfold render_item. destruct (item_box_returns (item_start_x bsx bw) by_ j it) as [b ->].
  simpl. eexists. reflexivity.
Qed.

Lemma render_branch_returns tw total i sub :
  returns (render_branch repr_float tw total i sub).
Proof.
  unfold render_branch. destruct (branch_box_returns tw total i sub) as [b ->].
  simpl.
  destruct (collect_returns
              (imap (render_item repr_float (branch_start_x tw) (box_width b)
                                 (branch_y total i))
                    (take 5 (s_items sub)))) as [its ->].
  { apply Forall_imap_all. intros. apply render_item_returns. }
  simpl. eexists. reflexivity.
Qed.

Lemma render_topics_returns topics : returns (render_topics repr_float topics).
Proof.
  unfold render_topics.
  destruct (match topics with [] => default_topics | _ :: _ => topics end)
    as [|main_topic rest]; [eexists; reflexivity|].
  destruct (main_box_returns main_topic) as [b ->]. simpl.
  destruct (0 <? Z.of_nat (length (subtopics main_topic))).
  - destruct (collect_returns
                (imap (render_branch repr_float (box_width b)
                         (Z.of_nat (length (subtopics main_topic))))
                      (subtopics main_topic))) as [br ->].
    { apply Forall_imap_all. intros. apply render_branch_returns. }
    simpl. eexists. reflexivity.
  - simpl. eexists. reflexivity.
Qed.

Lemma create_simple_svg_mindmap_returns structure :
  returns (create_simple_svg_mindmap repr_float structure).
Proof. apply render_topics_returns. Qed.

End RendererTotal.

(** ** Tree Builder *)

Lemma build_step_length st n :
  length (main_topics (build_step st n))
  = (length (main_topics st) + (if is_topic_heading n then 1 else 0))%nat.
Proof.
  unfold build_step, is_topic_heading. destruct (type n).
  - destruct (level n =? 1); simpl.
    + now rewrite length_app.
    + destruct (level n =? 2); [|lia].
      destruct (current_topic st); simpl; [|lia].
      rewrite length_alter. lia.
  - destruct (current_topic st) as [i|]; [|lia].
    destruct (main_topics st !! i) as [t|]; [|lia].
    destruct (subtopics t); simpl; rewrite length_alter; lia.
Qed.

Lemma build_fold_length structure st :
  length (main_topics (fold_left build_step structure st))
  = (length (main_topics st) + length (List.filter is_topic_heading structure))%nat.
Proof.
  revert st. induction structure as [|n l IH]; intros st; simpl; [lia|].
  rewrite IH, build_step_length. destruct (is_topic_heading n); simpl; lia.
Qed.

Lemma filter_nil_Forall {A} (p : A -> bool) (l : list A) :
  List.filter p l = [] <-> Forall (fun a => p a = false) l.
Proof.
  induction l as [|a l IH]; simpl.
  - split; [constructor|reflexivity].
  - destruct (p a) eqn:E.
    + split; [discriminate|]. intros H. apply Forall_inv in H. congruence.
    + rewrite IH. split; [now constructor|]. intros H. now apply Forall_inv_tail in H.
Qed.

(** The Tree Builder ends without a topic exactly when the outline has no
    heading of level 1. *)
Lemma build_topics_no_topic structure :
  main_topics (build_topics structure) = []
  <-> Forall (fun n => is_topic_heading n = false) structure.
Proof.
  rewrite <- filter_nil_Forall, <- !length_zero_iff_nil.
  unfold build_topics. rewrite build_fold_length. simpl. reflexivity.
Qed.

Lemma build_step_deep_heading st n :
  type n = heading -> 3 <= level n -> build_step st n = st.
Proof.
  intros Ht Hl. unfold build_step. rewrite Ht.
  destruct (Z.eqb_spec (level n) 1); [lia|].
  destruct (Z.eqb_spec (level n) 2); [lia|]. reflexivity.
Qed.

(** ** Outline Parser: a text that starts with [#] has a first node *)




(** ** Request Orchestrator *)

Lemma fold_left_append_head {A} (f : A -> pystr) (l : list A) c p :
  exists r, fold_left (fun acc a => acc ++ f a) l (c :: p) = c :: r.
Proof.
  revert p. induction l as [|a l IH]; intros p; simpl; [eauto|]. apply IH.
Qed.

Lemma fold_left_ext_pairs {A B} (f : pystr -> A * B -> pystr) (g : A * B -> pystr)
    (l : list (A * B)) i :
  (forall acc x, f acc x = acc ++ g x) ->
  fold_left f l i = fold_left (fun acc a => acc ++ g a) l i.
Proof.
  intros H. revert i. induction l as [|a l IH]; intros i; simpl; [reflexivity|].
  now rewrite H, IH.
Qed.

(** A room that exists always has a prompt, and it is not empty. *)
Lemma prompt_for_room w code room :
  ROOMS w !! code = Some room ->
  exists prompt,
    build_mindmap_prompt w code = Some prompt
    /\ usable_prompt (build_mindmap_prompt w code) = Some prompt.
Proof.
  intros Hroom. unfold build_mindmap_prompt. rewrite Hroom.
  destruct (py "請為以下討論室的內容生成一個結構化的心智圖 Markdown 格式總結。")
    as [|c p] eqn:E; [vm_compute in E; discriminate|].
  destruct (List.filter _ _) as [|t ts].
  - simpl. eauto.
  - match goal with
    | |- context [fold_left ?f ?l ?i] =>
      destruct (fold_left_append_head
                  (fun x : pystr * TopicData => prompt_topic w x.2) l c
                  (p ++ py "討論主題與內容:" ++ [NL; NL])) as [r Hr];
      assert (fold_left f l i = c :: r) as ->
    end.
    { rewrite <- Hr. apply fold_left_ext_pairs. intros acc [a b]. reflexivity. }
    simpl. eauto.
Qed.


Lemma nonempty_Some (s : pystr) : s <> [] -> nonempty (Some s) = Some s.
Proof. destruct s; [contradiction|reflexivity]. Qed.




(** C3, on the code. For a room code that is not in [ROOMS],
    [generate_mindmap] raises HTTP 404, but [preview_mindmap_markdown]
    raises HTTP 500: its only handler catches the 404 it has just raised
    and wraps it. *)
Theorem C3_missing_room_is_404_in_generate_but_500_in_preview
    (repr_float : float -> pystr) (w : World) (code : pystr)
    (custom : option pystr) :
  code <> [] ->
  ROOMS w !! code = None ->
  let request := {| room_code := Some code; custom_content := custom |} in
  (generate_mindmap repr_float w (Some request)).1
  = inl (HTTPException 404 (py "找不到討論室: " ++ code))
  /\ (preview_mindmap_markdown w request).1
     = inl (HTTPException 500
              (py "預覽失敗: "
               ++ str_of_exn (HTTPException 404 (py "找不到討論室: " ++ code)))).
Proof.
  intros Hcode Hroom request. split.
  - unfold generate_mindmap, markdown_source, request_field, request.
    cbn [room_code]. rewrite (nonempty_Some code Hcode), Hroom. reflexivity.
  - unfold preview_mindmap_markdown, preview_body, request.
    cbn [room_code]. rewrite (nonempty_Some code Hcode), Hroom. reflexivity.
Qed.

Lemma drop_first_last_middle {A} (first : A) middle last :
  drop_first_last (first :: middle ++ [last]) = middle.
Proof.
  unfold drop_first_last. simpl drop. unfold drop.
  replace (length (first :: middle ++ [last]) - 2)%nat with (length middle)
    by (simpl; rewrite length_app; simpl; lia).
  now rewrite take_app_length.
Qed.

Lemma first_middle_last {A} (l : list A) :
  (2 <= length l)%nat -> exists first middle last, l = first :: middle ++ [last].
Proof.
  intros Hlen. destruct l as [|a l]; [simpl in Hlen; lia|].
  destruct (exists_last (l := l)) as (m & z & ->).
  { intros ->. simpl in Hlen. lia. }
  eauto.
Qed.

(** C6. In both handlers the text the AI returned is trimmed; when the
    trimmed text starts with three backticks and splits into more than two
    lines at newlines, what is parsed (generate) or returned (preview) is
    the lines without the first and the last one, joined by newlines,
    whatever the last line is; otherwise it is the trimmed text, also when
    that starts with a fence and has two lines or fewer. *)
Theorem C6_code_fence_first_and_last_line_dropped
    (w : World) (code : pystr) (room : Room) (custom : option pystr)
    (prompt slug text : pystr) :
  code <> [] ->
  ROOMS w !! code = Some room ->
  build_mindmap_prompt w code = Some prompt ->
  (resolve_workspace w code room).1 = inr slug ->
  process_request w prompt slug = inr text ->
  let request := {| room_code := Some code; custom_content := custom |} in
  let trimmed := strip text in
  let lines := split_on NL trimmed in
  let cleaned :=
    if startswith (py "```") trimmed && (2 <? length lines)%nat
    then join [NL] (drop_first_last lines)
    else trimmed in
  (markdown_source w (Some request)).1 = inr cleaned
  /\ (preview_mindmap_markdown w request).1
     = inr {| p_room_code := code; p_room_title := room_title room;
              markdown := cleaned; prompt_used := prompt |}
  /\ ((2 < length lines)%nat ->
      exists first middle last,
        lines = first :: middle ++ [last] /\ drop_first_last lines = middle).
Proof.
  intros Hcode Hroom Hprompt Hslug Htext request trimmed lines cleaned.
  destruct (prompt_for_room w code room Hroom) as (p & Hp & Hup).
  rewrite Hprompt in Hp. injection Hp as <-.
  assert (Hclean : strip_code_fence text = cleaned).
  { unfold strip_code_fence, cleaned, lines, trimmed.
    destruct (startswith _ _); reflexivity. }
  split; [|split].
  - unfold markdown_source, request_field, request. cbn [room_code].
    rewrite (nonempty_Some code Hcode), Hroom, Hup. unfold ai_markdown.
    destruct (resolve_workspace w code room) as [r rooms]. cbn [fst] in Hslug.
    subst r. cbn [bind fst]. rewrite Htext. cbn [bind try_except ok].
    now rewrite Hclean.
  - unfold preview_mindmap_markdown, preview_body, request. cbn [room_code].
    rewrite (nonempty_Some code Hcode), Hroom, Hup. unfold ai_markdown.
    destruct (resolve_workspace w code room) as [r rooms]. cbn [fst] in Hslug.
    subst r. cbn [bind fst]. rewrite Htext. cbn [bind try_except ok].
    now rewrite Hclean.
  - intros Hlen. destruct (first_middle_last lines) as (a & m & z & E); [lia|].
    exists a, m, z. split; [exact E|]. rewrite E. apply drop_first_last_middle.
Qed.

Lemma alter_lookup_insert {A} (f : A -> A) (l : list A) i a :
  l !! i = Some a -> alter f i l = <[i := f a]> l.
Proof.
  revert i. induction l as [|b l IH]; intros [|i] H; simpl in *; try discriminate.
  - injection H as ->. reflexivity.
  - f_equal. now apply IH.
Qed.

Lemma alter_last {A} (f : A -> A) (l : list A) a :
  alter f (length (l ++ [a]) - 1)%nat (l ++ [a]) = l ++ [f a].
Proof.
  replace (length (l ++ [a]) - 1)%nat with (length l + 0)%nat
    by (rewrite length_app; simpl; lia).
  now rewrite alter_app_r.
Qed.

(** C7. In the outline of the four lines [# A], [- x], [## B], [- y] the
    topic A gets the loose item x and its only subtopic B the item y. In
    general an item node goes to the last subtopic of the current topic
    when the topic has one, and to the loose items of the topic when it has
    none. *)
Theorem C7_items_attach_to_most_recent_container :
  main_topics (build_topics (parse_markdown_to_simple_structure (py "# A
- x
## B
- y")))
  = [Topic (py "A") [Subtopic (py "B") [py "y"]] [py "x"]]
  /\ (forall st it i t subs s,
        type it = item ->
        current_topic st = Some i ->
        main_topics st !! i = Some t ->
        subtopics t = subs ++ [s] ->
        build_step st it
        = Builder (<[i := Topic (t_title t)
                             (subs ++ [Subtopic (s_title s) (s_items s ++ [title it])])
                             (items t)]> (main_topics st))
                  (Some i))
  /\ (forall st it i t,
        type it = item ->
        current_topic st = Some i ->
        main_topics st !! i = Some t ->
        subtopics t = [] ->
        build_step st it
        = Builder (<[i := Topic (t_title t) [] (items t ++ [title it])]> (main_topics st))
                  (Some i)).
Proof.
  split; [vm_compute; reflexivity|]. split.
  - intros st it i t subs s Hty Hcur Ht Hsubs.
    unfold build_step. rewrite Hty, Hcur, Ht.
    assert (exists s0 l, subtopics t = s0 :: l) as (s0 & l & E)
      by (rewrite Hsubs; destruct subs; simpl; eauto).
    rewrite E. f_equal.
    rewrite (alter_lookup_insert _ _ _ _ Ht). f_equal.
    unfold add_item_to_last_subtopic. rewrite Hsubs, alter_last. reflexivity.
  - intros st it i t Hty Hcur Ht Hsubs.
    unfold build_step. rewrite Hty, Hcur, Ht, Hsubs. f_equal.
    rewrite (alter_lookup_insert _ _ _ _ Ht). f_equal.
    unfold add_loose_item. now rewrite Hsubs.
Qed.

(** C10. A heading node of level 3 or more changes nothing in the fold of
    the Tree Builder: neither the topics built so far nor the current
    topic. The fold over an outline is therefore the fold over the outline
    without that node. *)
Theorem C10_deep_heading_is_a_no_op (it : node) :
  type it = heading ->
  3 <= level it ->
  (forall st, build_step st it = st)
  /\ (forall before after st,
        fold_left build_step (before ++ it :: after) st
        = fold_left build_step (before ++ after) st).
Proof.
  intros Hty Hlevel.
  assert (Hstep : forall st, build_step st it = st).
  { intros st. now apply build_step_deep_heading. }
  split; [exact Hstep|].
  intros before after st. rewrite !fold_left_app. simpl. now rewrite Hstep.
Qed.


(** C9. [wrap_text] never returns an empty list, for any text, width budget
    and font size; so the maximum over the widths of the lines, which the
    renderer takes for every box and which raises ValueError on no lines,
    is always defined on what [wrap_text] returns. *)
Theorem C9_wrap_text_returns_a_line (text : pystr) (max_width font_size : Z) :
  wrap_text text max_width font_size <> []
  /\ (forall font_size' min_width pad,
        exists w,
          fit_width (wrap_text text max_width font_size) font_size' min_width pad
          = inr w)
  /\ (forall font_size' min_width pad,
        fit_width [] font_size' min_width pad
        = inl (ValueError (py "max() arg is an empty sequence"))).
Proof.
  split; [apply wrap_text_nonempty|]. split.
  - intros. apply fit_width_wrap_text.
  - reflexivity.
Qed.

(** C4. A text within the width budget comes back as the one line [text].
    In every case the returned lines, joined again by single spaces, split
    into exactly the words of the text. Outside the budget the text is
    split at white space and the words are packed greedily: the words of
    the returned lines, in order, are exactly the words of the text; when the text has a word, each line is some of the
    words joined by single spaces and is within the budget unless it is a
    single word, and each line but the last was closed because the first
    word of the next line would have overflowed it; when it has none, the
    one line [text] is returned. *)
Theorem C4_wrap_text_keeps_the_words (text : pystr) (max_width font_size : Z) :
  (float_le_int (calculate_text_width text font_size) max_width = true ->
   wrap_text text max_width font_size = [text])
  /\ split (join [SP] (wrap_text text max_width font_size)) = split text
  /\ (float_le_int (calculate_text_width text font_size) max_width = false ->
      concat (List.map split (wrap_text text max_width font_size)) = split text
      /\ (split text <> [] ->
          Forall (packed max_width font_size) (wrap_text text max_width font_size)
          /\ greedy max_width font_size (wrap_text text max_width font_size))
      /\ (split text = [] -> wrap_text text max_width font_size = [text])).
Proof.
  split; [|split].
  - intros Hfit. unfold wrap_text, fits. now rewrite Hfit.
  - rewrite split_join_space. apply wrap_text_words.
  - intros Hfit. split; [apply wrap_text_words|]. split.
    + intros Hne. now apply wrap_text_greedy.
    + intros Hnil. unfold wrap_text, fits. rewrite Hfit, Hnil. reflexivity.
Qed.




Lemma C3_witness :
  let w := sample_world (ok []) in
  let request := {| room_code := Some (py "nope"); custom_content := None |} in
  ROOMS w !! py "nope" = None
  /\ http_status (generate_mindmap repr_float_sample w (Some request)).1 = Some 404
  /\ http_status (preview_mindmap_markdown w request).1 = Some 500.
Proof.
  intros w request.
  assert (Hroom : ROOMS w !! py "nope" = None) by (vm_compute; reflexivity).
  destruct (C3_missing_room_is_404_in_generate_but_500_in_preview
              repr_float_sample w (py "nope") None ltac:(discriminate) Hroom)
    as [Hgen Hprev].
  split; [exact Hroom|]. fold request in Hgen, Hprev.
  rewrite Hgen, Hprev. split; reflexivity.
Defined.

Lemma C6_witness :
  let fenced := py "

```markdown
# A
## B
```
" in
  let w := sample_world (ok fenced) in
  let request := {| room_code := Some (py "R1"); custom_content := None |} in
  (markdown_source w (Some request)).1 = inr (py "# A
## B")
  /\ http_status (preview_mindmap_markdown w request).1 = Some 200.
Proof.
  intros fenced w request.
  destruct (C6_code_fence_first_and_last_line_dropped
              w (py "R1") sample_room None sample_prompt (py "ws-roadmap") fenced)
    as (Hsrc & Hprev & _).
  - discriminate.
  - vm_compute. reflexivity.
  - vm_compute. reflexivity.
  - reflexivity.
  - reflexivity.
  - fold request in Hsrc, Hprev. split.
    + rewrite Hsrc. vm_compute. reflexivity.
    + rewrite Hprev. reflexivity.
Defined.

Lemma C10_witness :
  let deep := Node 3 (py "Detail") heading in
  let st := build_topics [Node 1 (py "A") heading; Node 2 (py "B") heading] in
  build_step st deep = st
  /\ main_topics (build_topics [Node 1 (py "A") heading; Node 2 (py "B") heading;
                                deep; Node 0 (py "y") item])
     = [Topic (py "A") [Subtopic (py "B") [py "y"]] []].
Proof.
  intros deep st.
  destruct (C10_deep_heading_is_a_no_op deep eq_refl ltac:(simpl; lia))
    as [Hstep Hfold].
  split; [apply Hstep|].
  pose proof (Hfold [Node 1 (py "A") heading; Node 2 (py "B") heading]
                    [Node 0 (py "y") item] build_init) as H.
  cbn [app] in H. unfold build_topics. rewrite H.
  vm_compute. reflexivity.
Defined.

Lemma C4_witness :
  let text := py "the quick brown fox jumps over the lazy dog" in
  float_le_int (calculate_text_width text 14) 200 = false
  /\ wrap_text text 200 14 = [py "the quick brown fox"; py "jumps over the lazy dog"]
  /\ concat (List.map split (wrap_text text 200 14)) = split text
  /\ Forall (packed 200 14) (wrap_text text 200 14)
  /\ greedy 200 14 (wrap_text text 200 14)
  /\ wrap_text (py "short") 200 14 = [py "short"].
Proof.
  intros text.
  assert (Hover : float_le_int (calculate_text_width text 14) 200 = false)
    by (vm_compute; reflexivity).
  destruct (C4_wrap_text_keeps_the_words text 200 14) as (_ & _ & Hwrap).
  destruct (Hwrap Hover) as (Hwords & Hgreedy & _).
  destruct Hgreedy as [Hpacked Hclosed]; [vm_compute; discriminate|].
  destruct (C4_wrap_text_keeps_the_words (py "short") 200 14) as (Hfit & _).
  split; [exact Hover|]. split; [vm_compute; reflexivity|].
  split; [exact Hwords|]. split; [exact Hpacked|]. split; [exact Hclosed|].
  apply Hfit. vm_compute. reflexivity.
Defined.

Lemma C7_witness :
  let st := build_topics [Node 1 (py "A") heading; Node 0 (py "x") item;
                          Node 2 (py "B") heading] in
  build_step st (Node 0 (py "y") item)
  = Builder [Topic (py "A") [Subtopic (py "B") [py "y"]] [py "x"]] (Some 0%nat).
Proof.
  intros st.
  destruct C7_items_attach_to_most_recent_container as (_ & Hlast & _).
  rewrite (Hlast st (Node 0 (py "y") item) 0%nat
             (Topic (py "A") [Subtopic (py "B") []] [py "x"])
             [] (Subtopic (py "B") []) eq_refl);
    vm_compute; reflexivity.
Defined.


(** * Further properties of the pipeline *)

(** ** Outline Parser *)

Lemma parse_line_append structure line :
  parse_line structure line = structure ++ parse_line [] line.
Proof.
  unfold parse_line. destruct (negb _); [now rewrite app_nil_r|].
  destruct (startswith _ _); [reflexivity|].
  destruct (startswith _ _); [reflexivity|now rewrite app_nil_r].
Qed.

Lemma parse_fold_append lines structure :
  fold_left parse_line lines structure
  = structure ++ fold_left parse_line lines [].
Proof.
  revert structure. induction lines as [|l lines IH]; intros structure; simpl.
  - now rewrite app_nil_r.
  - rewrite IH, (IH (parse_line [] l)), parse_line_append. now rewrite app_assoc.
Qed.

Lemma split_on_nonempty sep s : split_on sep s <> [].
Proof.
  destruct s as [|c s]; simpl; [discriminate|].
  destruct (c =? sep)%N; [discriminate|]. destruct (split_on sep s); discriminate.
Qed.

Lemma split_on_app sep a b :
  split_on sep (a ++ sep :: b) = split_on sep a ++ split_on sep b.
Proof.
  induction a as [|c a IH]; simpl.
  - now rewrite N.eqb_refl.
  - rewrite IH. destruct (c =? sep)%N; [reflexivity|].
    pose proof (split_on_nonempty sep a) as Hne.
    destruct (split_on sep a) as [|w ws]; [contradiction|reflexivity].
Qed.

Lemma split_on_snoc sep s c :
  c <> sep ->
  exists init last,
    split_on sep s = init ++ [last]
    /\ split_on sep (s ++ [c]) = init ++ [last ++ [c]].
Proof.
  intros Hc. induction s as [|d s (init & last & Hs & Hsc)]; simpl.
  - exists [], []. split; [reflexivity|].
    destruct (N.eqb_spec c sep); [contradiction|reflexivity].
  - rewrite Hs, Hsc. destruct (d =? sep)%N.
    + exists ([] :: init), last. split; reflexivity.
    + destruct init as [|i0 init]; simpl.
      * exists [], (d :: last). split; reflexivity.
      * exists ((d :: i0) :: init), last. split; reflexivity.
Qed.

Lemma lstrip_space c s : isspace c = true -> lstrip (c :: s) = lstrip s.
Proof. intros H. unfold lstrip. simpl. now rewrite H. Qed.

Lemma rstrip_snoc_space s c : isspace c = true -> rstrip (s ++ [c]) = rstrip s.
Proof.
  intros H. unfold rstrip. rewrite rev_app_distr. simpl. now rewrite H.
Qed.

Lemma strip_cons_space c s : isspace c = true -> strip (c :: s) = strip s.
Proof. intros H. unfold strip. now rewrite lstrip_space. Qed.

Lemma strip_snoc_space s c : isspace c = true -> strip (s ++ [c]) = strip s.
Proof.
  intros H. unfold strip, lstrip. induction s as [|d s IH]; simpl.
  - now rewrite H.
  - destruct (isspace d); [exact IH|].
    change (d :: s ++ [c]) with ((d :: s) ++ [c]). now apply rstrip_snoc_space.
Qed.

Lemma parse_line_cons_space structure c line :
  isspace c = true -> parse_line structure (c :: line) = parse_line structure line.
Proof. intros H. unfold parse_line. now rewrite strip_cons_space. Qed.

Lemma parse_line_snoc_space structure line c :
  isspace c = true -> parse_line structure (line ++ [c]) = parse_line structure line.
Proof. intros H. unfold parse_line. now rewrite strip_snoc_space. Qed.

Lemma parse_lines_cons_space c s :
  isspace c = true ->
  fold_left parse_line (split_on NL (c :: s)) []
  = fold_left parse_line (split_on NL s) [].
Proof.
  intros H. simpl. destruct (c =? NL)%N; [reflexivity|].
  pose proof (split_on_nonempty NL s) as Hne.
  destruct (split_on NL s) as [|w ws]; [contradiction|]. simpl.
  now rewrite parse_line_cons_space.
Qed.

Lemma parse_lines_snoc_space s c :
  isspace c = true ->
  fold_left parse_line (split_on NL (s ++ [c])) []
  = fold_left parse_line (split_on NL s) [].
Proof.
  intros H. destruct (N.eqb_spec c NL) as [->|Hne].
  - rewrite split_on_app, fold_left_app. reflexivity.
  - destruct (split_on_snoc NL s c Hne) as (init & last & -> & ->).
    rewrite !fold_left_app. simpl. now rewrite parse_line_snoc_space.
Qed.

Lemma parse_lines_lstrip s :
  fold_left parse_line (split_on NL (lstrip s)) []
  = fold_left parse_line (split_on NL s) [].
Proof.
  induction s as [|c s IH]; [reflexivity|].
  destruct (isspace c) eqn:Hc.
  - rewrite lstrip_space, parse_lines_cons_space by assumption. exact IH.
  - unfold lstrip. simpl. now rewrite Hc.
Qed.

Lemma parse_lines_rstrip s :
  fold_left parse_line (split_on NL (rstrip s)) []
  = fold_left parse_line (split_on NL s) [].
Proof.
  induction s as [|c s IH] using rev_ind; [reflexivity|].
  destruct (isspace c) eqn:Hc.
  - rewrite rstrip_snoc_space, parse_lines_snoc_space by assumption. exact IH.
  - unfold rstrip. rewrite rev_app_distr. simpl. rewrite Hc. simpl.
    now rewrite rev_involutive.
Qed.

(** The trimming of the whole text changes nothing: the outline is the
    per-line classification of the physical lines of the text as it is. *)
Lemma parse_as_lines s :
  parse_markdown_to_simple_structure s
  = fold_left parse_line (split_on NL s) [].
Proof.
  unfold parse_markdown_to_simple_structure, strip.
  now rewrite parse_lines_rstrip, parse_lines_lstrip.
Qed.

Lemma parse_joined (a b : pystr) :
  parse_markdown_to_simple_structure (a ++ [NL] ++ b)
  = parse_markdown_to_simple_structure a ++ parse_markdown_to_simple_structure b.
Proof.
  rewrite !parse_as_lines. change (a ++ [NL] ++ b) with (a ++ NL :: b).
  rewrite split_on_app, fold_left_app. apply parse_fold_append.
Qed.

(** X1. The outline of two texts put on separate lines is the outline of
    the first followed by the outline of the second; the outline of the
    empty text is empty. *)
Theorem X1_parse_of_joined_texts (a b : pystr) :
  parse_markdown_to_simple_structure (a ++ [NL] ++ b)
  = parse_markdown_to_simple_structure a ++ parse_markdown_to_simple_structure b
  /\ parse_markdown_to_simple_structure [] = [].
Proof. split; [apply parse_joined|reflexivity]. Qed.

Lemma dropwhile_idem p s : dropwhile p (dropwhile p s) = dropwhile p s.
Proof.
  induction s as [|c s IH]; [reflexivity|]. simpl.
  destruct (p c) eqn:E; [exact IH|]. simpl. now rewrite E.
Qed.

Lemma dropwhile_length p s : (length (dropwhile p s) <= length s)%nat.
Proof.
  induction s as [|c s IH]; simpl; [lia|]. destruct (p c); simpl; lia.
Qed.

Lemma dropwhile_head p s :
  dropwhile p s = [] \/ exists c r, dropwhile p s = c :: r /\ p c = false.
Proof.
  induction s as [|c s IH]; simpl; [now left|].
  destruct (p c) eqn:E; [exact IH|]. right. eauto.
Qed.

Lemma rstrip_idem s : rstrip (rstrip s) = rstrip s.
Proof. unfold rstrip. now rewrite rev_involutive, dropwhile_idem. Qed.

Lemma strip_idem s : strip (strip s) = strip s.
Proof.
  change (strip s) with (rstrip (dropwhile isspace s)).
  destruct (dropwhile_head isspace s) as [->|(c & r & -> & Hc)]; [reflexivity|].
  destruct (rstrip_cons c r Hc) as [r' E]. unfold strip, lstrip.
  rewrite E. simpl. rewrite Hc. rewrite <- E. apply rstrip_idem.
Qed.

Lemma heading_level_positive (r : pystr) :
  1 <= Z.of_nat (length (35%N :: r))
       - Z.of_nat (length (lstrip_chars [35%N] (35%N :: r))).
Proof.
  unfold lstrip_chars. cbn [dropwhile existsb]. rewrite N.eqb_refl. cbn [orb].
  pose proof (dropwhile_length (fun c => existsb (N.eqb c) [35%N]) r) as H.
  cbn [existsb] in H. cbn [length]. lia.
Qed.

Lemma parse_line_wf line : Forall node_wf (parse_line [] line).
Proof.
  unfold parse_line. destruct (negb _); [constructor|].
  destruct (startswith (py "#") (strip line)) eqn:Hh.
  - constructor; [|constructor]. split; [|apply strip_idem]. simpl.
    change (py "#") with [35%N] in *.
    destruct (strip line) as [|c r]; [discriminate Hh|].
    change ((35 =? c)%N && true = true) in Hh.
    apply andb_true_iff in Hh as [Hh _]. apply N.eqb_eq in Hh. subst c.
    apply heading_level_positive.
  - destruct (startswith (py "-") (strip line)); [|constructor].
    constructor; [|constructor]. split; [reflexivity|apply strip_idem].
Qed.

Lemma parse_lines_wf lines : Forall node_wf (fold_left parse_line lines []).
Proof.
  induction lines as [|l lines IH]; simpl; [constructor|].
  rewrite parse_fold_append. apply Forall_app. split; [apply parse_line_wf|exact IH].
Qed.

(** X2. Every node of an outline is well formed: a heading has level 1 or
    more, an item has level 0, and no title starts or ends with white
    space. *)
Theorem X2_parsed_nodes_are_well_formed (markdown_content : pystr) :
  Forall node_wf (parse_markdown_to_simple_structure markdown_content).
Proof. rewrite parse_as_lines. apply parse_lines_wf. Qed.

(** X3. A line whose first character after the white space is neither [#]
    nor [-] is ignored: the outline of a text is the outline of the text
    without that line. A blank line is such a line. *)
Theorem X3_other_lines_are_ignored (a other b : pystr) :
  ~ In NL other ->
  startswith (py "#") (strip other) = false ->
  startswith (py "-") (strip other) = false ->
  parse_markdown_to_simple_structure (a ++ [NL] ++ other ++ [NL] ++ b)
  = parse_markdown_to_simple_structure (a ++ [NL] ++ b).
Proof.
  intros Hnl Hh Hi. rewrite !parse_joined.
  f_equal.
  assert (parse_markdown_to_simple_structure other = []) as ->; [|reflexivity].
  rewrite parse_as_lines.
  assert (split_on NL other = [other]) as ->.
  { clear Hh Hi. induction other as [|c o IH]; [reflexivity|]. simpl.
    destruct (N.eqb_spec c NL) as [->|_]; [exfalso; apply Hnl; now left|].
    rewrite IH; [reflexivity|]. intros H. apply Hnl. now right. }
  simpl. unfold parse_line. rewrite Hh, Hi. now destruct (negb _).
Qed.

(** ** Tree Builder *)

Lemma cursor_at_last_length st :
  cursor_at_last st
  <-> current_topic st
      = match length (main_topics st) with O => None | S k => Some k end.
Proof.
  unfold cursor_at_last. destruct (main_topics st) as [|t ts]; simpl; [reflexivity|].
  now rewrite Nat.sub_0_r.
Qed.

Lemma build_step_cursor st n : cursor_at_last st -> cursor_at_last (build_step st n).
Proof.
  rewrite !cursor_at_last_length. intros Hc. unfold build_step.
  destruct (type n).
  - destruct (level n =? 1); simpl.
    + rewrite length_app. simpl. now rewrite Nat.add_1_r.
    + destruct (level n =? 2); [|exact Hc].
      destruct (current_topic st) as [i|] eqn:Hi; [|now rewrite Hi].
      simpl. now rewrite length_alter.
  - destruct (current_topic st) as [i|] eqn:Hi; [|now rewrite Hi].
    destruct (main_topics st !! i) as [t|]; [|now rewrite Hi].
    destruct (subtopics t); simpl; now rewrite length_alter.
Qed.

Lemma build_fold_cursor structure st :
  cursor_at_last st -> cursor_at_last (fold_left build_step structure st).
Proof.
  revert st. induction structure as [|n l IH]; intros st Hst; simpl; [exact Hst|].
  apply IH. now apply build_step_cursor.
Qed.

Lemma map_alter_preserved {A B} (h : A -> B) (f : A -> A) i (l : list A) :
  (forall a, h (f a) = h a) -> List.map h (alter f i l) = List.map h l.
Proof.
  intros Hf. revert i. induction l as [|a l IH]; intros [|i]; simpl; try reflexivity.
  - now rewrite Hf.
  - f_equal. apply IH.
Qed.

Lemma build_step_titles st n :
  List.map t_title (main_topics (build_step st n))
  = List.map t_title (main_topics st)
    ++ (if is_topic_heading n then [title n] else []).
Proof.
  unfold build_step, is_topic_heading. destruct (type n).
  - destruct (level n =? 1); simpl; [now rewrite map_app|].
    rewrite app_nil_r. destruct (level n =? 2); [|reflexivity].
    destruct (current_topic st); [|reflexivity]. simpl.
    now apply map_alter_preserved.
  - rewrite app_nil_r. destruct (current_topic st) as [i|]; [|reflexivity].
    destruct (main_topics st !! i) as [t|]; [|reflexivity].
    destruct (subtopics t); simpl; now apply map_alter_preserved.
Qed.

Lemma build_fold_titles structure st :
  List.map t_title (main_topics (fold_left build_step structure st))
  = List.map t_title (main_topics st)
    ++ List.map title (List.filter is_topic_heading structure).
Proof.
  revert st. induction structure as [|n l IH]; intros st; simpl.
  - now rewrite app_nil_r.
  - rewrite IH, build_step_titles. rewrite <- app_assoc. f_equal.
    now destruct (is_topic_heading n).
Qed.

(** X4. The topics the Tree Builder returns are, in order, the headings of
    level 1 of the outline, one topic per heading with the title of the
    heading; and when the fold ends its cursor is the last of them, or
    [None] when there is none. *)
Theorem X4_one_topic_per_level_1_heading (structure : list node) :
  List.map t_title (main_topics (build_topics structure))
  = List.map title (List.filter is_topic_heading structure)
  /\ cursor_at_last (build_topics structure).
Proof.
  split.
  - unfold build_topics. now rewrite build_fold_titles.
  - apply build_fold_cursor. reflexivity.
Qed.

Lemma build_step_no_topic_yet st n :
  current_topic st = None -> is_topic_heading n = false -> build_step st n = st.
Proof.
  intros Hc Hn. unfold build_step, is_topic_heading in *. rewrite Hc.
  destruct (type n); [|reflexivity]. rewrite Hn. now destruct (level n =? 2).
Qed.

Lemma build_from_first_topic structure :
  build_topics structure = build_topics (from_first_topic structure).
Proof.
  unfold build_topics. induction structure as [|n l IH]; [reflexivity|].
  simpl from_first_topic. destruct (is_topic_heading n) eqn:Hn; [reflexivity|].
  simpl. now rewrite build_step_no_topic_yet.
Qed.

(** X5. Whatever comes before the first heading of level 1 is dropped: the
    subtopic headings and the items there belong to no topic, and the tree
    is the tree of the outline from that heading on. *)
Theorem X5_nodes_before_the_first_topic_are_dropped (before rest : list node) :
  Forall (fun n => is_topic_heading n = false) before ->
  build_topics (before ++ rest) = build_topics rest.
Proof.
  intros Hb. rewrite (build_from_first_topic (before ++ rest)).
  rewrite (build_from_first_topic rest). f_equal.
  induction Hb as [|n l Hn _ IH]; [reflexivity|]. simpl. now rewrite Hn.
Qed.

Lemma sum_alter_same {A} (g : A -> nat) (f : A -> A) i (l : list A) :
  (forall a, g (f a) = g a) -> sum_list_with g (alter f i l) = sum_list_with g l.
Proof.
  intros Hf. revert i. induction l as [|a l IH]; intros [|i]; simpl; try reflexivity.
  - now rewrite Hf.
  - f_equal. apply IH.
Qed.

Lemma sum_alter_succ {A} (g : A -> nat) (f : A -> A) i (l : list A) a :
  l !! i = Some a -> g (f a) = S (g a) ->
  sum_list_with g (alter f i l) = S (sum_list_with g l).
Proof.
  revert i. induction l as [|b l IH]; intros [|i] Hi Hf; try discriminate.
  - injection Hi as ->. simpl. now rewrite Hf.
  - change (alter f (S i) (b :: l)) with (b :: alter f i l).
    cbn [sum_list_with]. rewrite (IH i Hi Hf). lia.
Qed.

Lemma topic_items_add_loose x t : topic_items (add_loose_item x t) = S (topic_items t).
Proof. unfold topic_items, add_loose_item. simpl. rewrite length_app. simpl. lia. Qed.

Lemma topic_items_add_to_last x t :
  subtopics t <> [] -> topic_items (add_item_to_last_subtopic x t) = S (topic_items t).
Proof.
  intros Hne. destruct (exists_last Hne) as (subs & s & E).
  unfold topic_items, add_item_to_last_subtopic. simpl. rewrite E, alter_last.
  rewrite !sum_list_with_app. simpl. rewrite length_app. simpl. lia.
Qed.

Lemma topic_items_add_subtopic s t :
  s_items s = [] -> topic_items (add_subtopic s t) = topic_items t.
Proof.
  intros Hs. unfold topic_items, add_subtopic. simpl.
  rewrite sum_list_with_app. simpl. rewrite Hs. simpl. lia.
Qed.

(** What one node adds to the tree, once a topic is open. *)
Lemma build_step_counts st n i :
  current_topic st = Some i -> is_Some (main_topics st !! i) ->
  total_items (main_topics (build_step st n))
  = (total_items (main_topics st) + (if is_item_node n then 1 else 0))%nat
  /\ total_subtopics (main_topics (build_step st n))
     = (total_subtopics (main_topics st) + (if is_subtopic_heading n then 1 else 0))%nat.
Proof.
  intros Hc [t Ht]. unfold build_step, is_item_node, is_subtopic_heading.
  rewrite Hc, Ht. unfold total_items, total_subtopics. destruct (type n).
  - destruct (Z.eqb_spec (level n) 1) as [E1|_]; cbn [main_topics].
    + rewrite E1, !sum_list_with_app. cbn. lia.
    + destruct (level n =? 2); cbn [main_topics]; [|lia].
      rewrite (sum_alter_same topic_items)
        by (intros a; now apply topic_items_add_subtopic).
      rewrite (sum_alter_succ _ _ _ _ _ Ht); [lia|].
      unfold add_subtopic. cbn. rewrite length_app. cbn. lia.
  - destruct (subtopics t) as [|s0 subs] eqn:Hs; cbn [main_topics].
    + rewrite (sum_alter_succ _ _ _ _ _ Ht) by apply topic_items_add_loose.
      rewrite sum_alter_same by reflexivity. lia.
    + rewrite (sum_alter_succ _ _ _ _ _ Ht)
        by (apply topic_items_add_to_last; rewrite Hs; discriminate).
      rewrite sum_alter_same; [lia|].
      intros a. unfold add_item_to_last_subtopic. cbn. now rewrite length_alter.
Qed.

Lemma cursor_open st i :
  cursor_at_last st -> current_topic st = Some i -> is_Some (main_topics st !! i).
Proof.
  rewrite cursor_at_last_length. intros Hc Hi. rewrite Hi in Hc.
  destruct (length (main_topics st)) as [|k] eqn:Hl; [discriminate|].
  injection Hc as ->. apply lookup_lt_is_Some. lia.
Qed.

Lemma build_step_stays_open st n i :
  cursor_at_last st -> current_topic st = Some i ->
  exists j, current_topic (build_step st n) = Some j.
Proof.
  intros Hc Hi. destruct (cursor_open st i Hc Hi) as [t Ht].
  unfold build_step. rewrite Hi, Ht. destruct (type n).
  - destruct (level n =? 1); [simpl; eauto|]. destruct (level n =? 2); simpl; eauto.
  - destruct (subtopics t); simpl; eauto.
Qed.

Lemma build_fold_counts structure st i :
  cursor_at_last st -> current_topic st = Some i ->
  total_items (main_topics (fold_left build_step structure st))
  = (total_items (main_topics st) + length (List.filter is_item_node structure))%nat
  /\ total_subtopics (main_topics (fold_left build_step structure st))
     = (total_subtopics (main_topics st)
        + length (List.filter is_subtopic_heading structure))%nat.
Proof.
  revert st i. induction structure as [|n l IH]; intros st i Hc Hi; simpl; [lia|].
  destruct (build_step_counts st n i Hi (cursor_open st i Hc Hi)) as [Hit Hsub].
  destruct (build_step_stays_open st n i Hc Hi) as [j Hj].
  destruct (IH (build_step st n) j (build_step_cursor st n Hc) Hj) as [-> ->].
  rewrite Hit, Hsub.
  destruct (is_item_node n), (is_subtopic_heading n); simpl; lia.
Qed.

(** X6. No node is lost once a topic is open: the items held by the tree,
    loose or under a subtopic, are as many as the item nodes from the first
    heading of level 1 on, and its subtopics are as many as the headings of
    level 2 from there on. *)
Theorem X6_tree_keeps_every_item_and_subtopic (structure : list node) :
  total_items (main_topics (build_topics structure))
  = length (List.filter is_item_node (from_first_topic structure))
  /\ total_subtopics (main_topics (build_topics structure))
     = length (List.filter is_subtopic_heading (from_first_topic structure)).
Proof.
  rewrite build_from_first_topic.
  induction structure as [|n l IH]; [split; reflexivity|].
  simpl from_first_topic. destruct (is_topic_heading n) eqn:Hn; [|exact IH].
  clear IH. unfold build_topics. simpl fold_left.
  assert (build_step build_init n = Builder [Topic (title n) [] []] (Some 0%nat)) as ->.
  { unfold build_step, is_topic_heading in *. destruct (type n); [|discriminate].
    now rewrite Hn. }
  destruct (build_fold_counts l (Builder [Topic (title n) [] []] (Some 0%nat)) 0%nat)
    as [-> ->]; [reflexivity|reflexivity|].
  unfold is_topic_heading, is_item_node, is_subtopic_heading in *. simpl.
  destruct (type n); [|discriminate].
  destruct (Z.eqb_spec (level n) 1) as [E|]; [|discriminate]. rewrite E. simpl.
  split; reflexivity.
Qed.

Lemma build_step_keeps_first st n t0 :
  cursor_at_last st -> (2 <= length (main_topics st))%nat ->
  main_topics st !! 0%nat = Some t0 ->
  (2 <= length (main_topics (build_step st n)))%nat
  /\ main_topics (build_step st n) !! 0%nat = Some t0.
Proof.
  rewrite cursor_at_last_length. intros Hc Hlen H0. unfold build_step.
  destruct (length (main_topics st)) as [|k] eqn:Hl; [lia|].
  rewrite Hc. destruct (type n).
  - destruct (level n =? 1); cbn [main_topics].
    + rewrite length_app. split; [lia|].
      rewrite lookup_app_l by lia. exact H0.
    + destruct (level n =? 2); cbn [main_topics]; [|split; [lia|exact H0]].
      rewrite length_alter. split; [lia|].
      rewrite list_lookup_alter_ne by lia. exact H0.
  - destruct (main_topics st !! k) as [t|]; [|split; [lia|exact H0]].
    destruct (subtopics t); cbn [main_topics]; rewrite length_alter;
      (split; [lia|]); rewrite list_lookup_alter_ne by lia; exact H0.
Qed.

Lemma build_fold_keeps_first structure st t0 :
  cursor_at_last st -> (2 <= length (main_topics st))%nat ->
  main_topics st !! 0%nat = Some t0 ->
  main_topics (fold_left build_step structure st) !! 0%nat = Some t0.
Proof.
  revert st. induction structure as [|n l IH]; intros st Hc Hlen H0; simpl; [exact H0|].
  destruct (build_step_keeps_first st n t0 Hc Hlen H0) as [Hlen' H0'].
  apply IH; [now apply build_step_cursor|exact Hlen'|exact H0'].
Qed.

Lemma render_topics_first repr_float t ts :
  render_topics repr_float (t :: ts) = render_topics repr_float [t].
Proof. reflexivity. Qed.

(** X7. The first topic wins: when the outline already has a heading of
    level 1, everything from a later heading of level 1 on, that heading
    and whatever follows it, leaves the document unchanged. *)
Theorem X7_only_the_first_topic_is_drawn
    (repr_float : float -> pystr) (first : list node) (h : node) (rest : list node) :
  Exists (fun n => is_topic_heading n = true) first ->
  is_topic_heading h = true ->
  create_simple_svg_mindmap repr_float (first ++ h :: rest)
  = create_simple_svg_mindmap repr_float first.
Proof.
  intros Hfirst Hh. unfold create_simple_svg_mindmap.
  pose proof (build_fold_cursor first build_init eq_refl) as Hc.
  fold (build_topics first) in Hc.
  destruct (main_topics (build_topics first)) as [|t0 ts] eqn:Hmt.
  { apply build_topics_no_topic in Hmt. apply Exists_exists in Hfirst as (n & Hin & Hn).
    rewrite Forall_forall in Hmt. rewrite (Hmt n Hin) in Hn. discriminate. }
  assert (build_step (build_topics first) h
          = Builder (main_topics (build_topics first) ++ [Topic (title h) [] []])
                    (Some (length (main_topics (build_topics first))))) as Hstep.
  { unfold build_step, is_topic_heading in *. destruct (type h); [|discriminate].
    now rewrite Hh. }
  assert (main_topics (build_topics (first ++ h :: rest)) !! 0%nat = Some t0) as H0.
  { unfold build_topics. rewrite fold_left_app. simpl fold_left.
    fold (build_topics first). rewrite Hstep.
    apply build_fold_keeps_first.
    - apply cursor_at_last_length. cbn [main_topics current_topic].
      rewrite length_app. simpl. now rewrite Nat.add_1_r.
    - cbn [main_topics]. rewrite length_app, Hmt. simpl. lia.
    - cbn [main_topics]. rewrite Hmt. reflexivity. }
  destruct (main_topics (build_topics (first ++ h :: rest))) as [|t1 ts1];
    [discriminate|].
  injection H0 as ->.
  now rewrite (render_topics_first repr_float t0 ts),
              (render_topics_first repr_float t0 ts1).
Qed.

(** ** Renderer *)

Lemma imap_map {A B C} (f : nat -> B -> C) (g : A -> B) (l : list A) :
  imap f (List.map g l) = imap (fun i a => f i (g a)) l.
Proof.
  revert f. induction l as [|a l IH]; intros f; simpl; [reflexivity|].
  f_equal. apply IH.
Qed.

Lemma render_branch_shown repr_float tw total i s :
  render_branch repr_float tw total i (shown_subtopic s)
  = render_branch repr_float tw total i s.
Proof.
  unfold render_branch, branch_box, shown_subtopic. cbn [s_title s_items].
  now rewrite take_take.
Qed.

Lemma render_topics_shown repr_float t ts :
  render_topics repr_float (t :: ts) = render_topics repr_float [shown t].
Proof.
  unfold render_topics, shown, main_box. cbn [t_title subtopics].
  rewrite length_map.
  destruct (fit_width _ _ _ _) as [e|title_width]; cbn [bind ok box_width].
  - reflexivity.
  - rewrite imap_map.
    assert (Himap :
      imap (fun i a => render_branch repr_float title_width
                         (Z.of_nat (length (subtopics t))) i (shown_subtopic a))
           (subtopics t)
      = imap (render_branch repr_float title_width (Z.of_nat (length (subtopics t))))
             (subtopics t)).
    { apply imap_ext. intros i s _. apply render_branch_shown. }
    rewrite Himap. reflexivity.
Qed.

(** X8. The document shows the title of the first topic and, of each of
    its subtopics, the title and the first five items, and nothing else of
    the tree: two outlines that agree on these are drawn alike, whatever
    their loose items, their items after the fifth and their later
    topics. *)
Theorem X8_document_depends_on_what_is_shown
    (repr_float : float -> pystr) (s1 s2 : list node) (t1 t2 : topic)
    (ts1 ts2 : list topic) :
  main_topics (build_topics s1) = t1 :: ts1 ->
  main_topics (build_topics s2) = t2 :: ts2 ->
  shown t1 = shown t2 ->
  create_simple_svg_mindmap repr_float s1 = create_simple_svg_mindmap repr_float s2.
Proof.
  intros H1 H2 Hshown. unfold create_simple_svg_mindmap.
  rewrite H1, H2.
  rewrite (render_topics_shown repr_float t1 ts1).
  rewrite (render_topics_shown repr_float t2 ts2).
  now rewrite Hshown.
Qed.

Lemma branch_spacing_bounds n :
  1 <= n -> 0 <= branch_spacing n <= 150 /\ n * branch_spacing n <= 600.
Proof.
  intros Hn. unfold branch_spacing, height.
  change (800 - 200) with 600.
  pose proof (Z.div_pos 600 n ltac:(lia) ltac:(lia)) as Hpos.
  pose proof (Z.mul_div_le 600 n ltac:(lia)) as Hle.
  split; [lia|].
  destruct (Z.min_spec 150 (600 / n)) as [[Hlt ->]|[_ ->]]; [|lia].
  assert (n * 150 <= n * (600 / n)) by (apply Z.mul_le_mono_nonneg_l; lia).
  lia.
Qed.

(** X9. However many subtopics there are, their rows stay inside the
    canvas: the rows are one [branch_spacing] apart, at most 150, the fan is
    centred on the row of the root within a pixel, every row lies between
    y = 100 and y = 700, and every item row of a subtopic, five at most,
    between y = 40 and y = 760. *)
Theorem X9_rows_stay_inside_the_canvas (total_branches : Z) (i j : nat) :
  1 <= total_branches ->
  Z.of_nat i < total_branches ->
  (j < 5)%nat ->
  branch_y total_branches (S i) - branch_y total_branches i
  = branch_spacing total_branches
  /\ 0 <= branch_spacing total_branches <= 150
  /\ 0 <= branch_y total_branches 0
          + branch_y total_branches (Z.to_nat (total_branches - 1)) - 2 * main_y <= 1
  /\ 100 <= branch_y total_branches i <= 700
  /\ 40 <= item_y (branch_y total_branches i) j <= 760.
Proof.
  intros Hn Hi Hj.
  destruct (branch_spacing_bounds total_branches Hn) as [Hsp Hmul].
  unfold item_y, branch_y, start_y, main_y, height in *.
  change (800 / 2) with 400.
  set (sp := branch_spacing total_branches) in *.
  set (k := (total_branches - 1) * sp).
  assert (0 <= k <= 600) by (unfold k; nia).
  pose proof (Z.div_mod k 2 ltac:(lia)) as Hdm.
  pose proof (Z.mod_pos_bound k 2 ltac:(lia)) as Hmod.
  rewrite Z2Nat.id by lia. fold k.
  assert (0 <= Z.of_nat i * sp <= k) by (unfold k; nia).
  repeat split; try lia.
Qed.

(** ** Text Metrics *)

(** X10. A text without white space is never broken: whatever the width
    budget and the font size, it comes back as the one line [text]. *)
Theorem X10_text_without_spaces_is_one_line (text : pystr) (max_width font_size : Z) :
  Forall (fun c => isspace c = false) text ->
  wrap_text text max_width font_size = [text].
Proof.
  intros Hw. unfold wrap_text.
  destruct (fits max_width font_size text) eqn:Hfit; [reflexivity|].
  destruct text as [|c text]; [reflexivity|].
  rewrite (split_word (c :: text)) by (split; [discriminate|exact Hw]).
  simpl fold_left. unfold wrap_step. simpl truthy. cbv iota.
  change ([] ++ [] ++ c :: text) with (c :: text). rewrite Hfit. reflexivity.
Qed.

Lemma length_concat_nonempty {A B} (f : A -> list B) (ls : list A) :
  Forall (fun l => f l <> []) ls ->
  (length ls <= length (concat (List.map f ls)))%nat.
Proof.
  induction 1 as [|l ls Hl _ IH]; simpl; [lia|].
  rewrite length_app. destruct (f l); [contradiction|]. simpl. lia.
Qed.

(** X11. Wrapping never makes more lines than the text has words: a text
    with words that exceeds the budget is wrapped into at most as many
    lines as it has words, none of them empty. *)
Theorem X11_no_more_lines_than_words (text : pystr) (max_width font_size : Z) :
  float_le_int (calculate_text_width text font_size) max_width = false ->
  split text <> [] ->
  (length (wrap_text text max_width font_size) <= length (split text))%nat
  /\ Forall (fun l => l <> []) (wrap_text text max_width font_size).
Proof.
  intros Hfit Hne.
  destruct (wrap_text_greedy max_width font_size text Hfit Hne) as [Hpacked _].
  split.
  - rewrite <- (wrap_text_words max_width font_size text).
    apply length_concat_nonempty. eapply Forall_impl; [exact Hpacked|].
    intros l Hl. apply Hl.
  - eapply Forall_impl; [exact Hpacked|].
    intros l (Hs & _ & _) ->. now apply Hs.
Qed.

Lemma filter_length_Permutation {A} (p : A -> bool) (l l' : list A) :
  Permutation l l' -> length (List.filter p l) = length (List.filter p l').
Proof.
  induction 1 as [|a l l' _ IH|a b l|l l' l'' _ IH1 _ IH2]; simpl.
  - reflexivity.
  - destruct (p a); simpl; now rewrite IH.
  - destruct (p a), (p b); reflexivity.
  - now rewrite IH1.
Qed.

(** X12. The estimated width depends only on how many wide and how many
    narrow characters the text has, not on their order: a text and any
    rearrangement of it have the same width. The empty text has width
    zero at every font size. *)
Theorem X12_width_ignores_the_order_of_characters
    (text text' : pystr) (font_size : Z) :
  Permutation text text' ->
  calculate_text_width text font_size = calculate_text_width text' font_size
  /\ calculate_text_width [] font_size = S754_zero false.
Proof.
  intros Hp. split; [|reflexivity]. unfold calculate_text_width.
  now rewrite (filter_length_Permutation _ _ _ Hp), (Permutation_length Hp).
Qed.

(** ** Request Orchestrator *)

Lemma split_on_no_sep sep s : ~ In sep s -> split_on sep s = [s].
Proof.
  induction s as [|c s IH]; intros Hn; [reflexivity|]. simpl.
  destruct (N.eqb_spec c sep) as [->|_]; [exfalso; apply Hn; now left|].
  rewrite IH; [reflexivity|]. intros H. apply Hn. now right.
Qed.

Lemma join_cons_head sep c w ws : join sep ((c :: w) :: ws) = c :: join sep (w :: ws).
Proof. destruct ws; reflexivity. Qed.

(** Splitting at a separator and joining with it gives the text back. *)
Lemma join_split_on sep s : join [sep] (split_on sep s) = s.
Proof.
  induction s as [|c s IH]; [reflexivity|]. simpl.
  pose proof (split_on_nonempty sep s) as Hne.
  destruct (N.eqb_spec c sep) as [->|_].
  - destruct (split_on sep s) as [|w ws]; [contradiction|].
    change (join [sep] ([] :: w :: ws)) with (sep :: join [sep] (w :: ws)).
    now rewrite IH.
  - destruct (split_on sep s) as [|w ws]; [contradiction|].
    now rewrite join_cons_head, IH.
Qed.

Lemma strip_between c mid d :
  isspace c = false -> isspace d = false ->
  strip (c :: mid ++ [d]) = c :: mid ++ [d].
Proof.
  intros Hc Hd. unfold strip, lstrip. simpl. rewrite Hc. unfold rstrip.
  change (c :: mid ++ [d]) with ((c :: mid) ++ [d]).
  rewrite rev_app_distr. simpl. rewrite Hd. simpl.
  now rewrite rev_app_distr, rev_involutive.
Qed.

Lemma startswith_app p r : startswith p (p ++ r) = true.
Proof. induction p as [|c p IH]; [reflexivity|]. simpl. now rewrite N.eqb_refl. Qed.

(** X13. A fenced block gives its body back: for an opening line of three
    backticks and any tag, a body of any lines and a closing line of three
    backticks, the clean-up of the handlers returns exactly the body. *)
Theorem X13_fenced_body_is_recovered (tag body : pystr) :
  ~ In NL tag ->
  strip_code_fence (py "```" ++ tag ++ [NL] ++ body ++ [NL] ++ py "```") = body.
Proof.
  intros Htag. unfold strip_code_fence.
  assert (Hstrip : strip (py "```" ++ tag ++ [NL] ++ body ++ [NL] ++ py "```")
                   = py "```" ++ tag ++ [NL] ++ body ++ [NL] ++ py "```").
  { change (py "```") with [96; 96; 96]%N.
    change ([96; 96; 96] ++ tag ++ [NL] ++ body ++ [NL] ++ [96; 96; 96])%N
      with (96 :: ([96; 96] ++ tag ++ [NL] ++ body ++ [NL] ++ [96; 96; 96]))%N.
    replace ([96; 96] ++ tag ++ [NL] ++ body ++ [NL] ++ [96; 96; 96])%N
      with (([96; 96] ++ tag ++ [NL] ++ body ++ [NL] ++ [96; 96]) ++ [96])%N
      by (now rewrite <- !app_assoc).
    now apply strip_between. }
  rewrite Hstrip, startswith_app.
  assert (Hlines : split_on NL (py "```" ++ tag ++ [NL] ++ body ++ [NL] ++ py "```")
                   = (py "```" ++ tag) :: split_on NL body ++ [py "```"]).
  { replace (py "```" ++ tag ++ [NL] ++ body ++ [NL] ++ py "```")
      with ((py "```" ++ tag) ++ NL :: (body ++ NL :: py "```"))
      by (now rewrite <- !app_assoc).
    rewrite !split_on_app.
    rewrite (split_on_no_sep NL (py "```" ++ tag)).
    - rewrite (split_on_no_sep NL (py "```")); [reflexivity|].
      vm_compute. intuition discriminate.
    - intros Hin. apply in_app_or in Hin as [Hin|Hin]; [|now apply Htag].
      revert Hin. vm_compute. intuition discriminate. }
  rewrite Hlines.
  assert ((2 <? length ((py "```" ++ tag) :: split_on NL body ++ [py "```"]))%nat = true)
    as ->.
  { apply Nat.ltb_lt. simpl. rewrite length_app. simpl.
    pose proof (split_on_nonempty NL body). destruct (split_on NL body); [contradiction|].
    simpl. lia. }
  rewrite drop_first_last_middle. apply join_split_on.
Qed.

(** X14. A prompt can be built exactly for the rooms that exist, and it is
    never empty; for a room without topics it is the opening sentence
    followed by the remark that the room has no topic yet. *)
Theorem X14_prompt_exists_exactly_for_existing_rooms (w : World) (code : pystr) :
  (build_mindmap_prompt w code = None <-> ROOMS w !! code = None)
  /\ (forall prompt, build_mindmap_prompt w code = Some prompt -> prompt <> [])
  /\ (is_Some (ROOMS w !! code) ->
      Forall (fun '(t_id, t) => room_id t <> code) (topics w) ->
      build_mindmap_prompt w code
      = Some (py "請為以下討論室的內容生成一個結構化的心智圖 Markdown 格式總結。"
              ++ py "目前討論室還沒有任何主題。" ++ [NL])).
Proof.
  split; [|split].
  - split.
    + intros Hnone. destruct (ROOMS w !! code) as [room|] eqn:Hroom; [|reflexivity].
      destruct (prompt_for_room w code room Hroom) as (p & Hp & _). congruence.
    + intros Hroom. unfold build_mindmap_prompt. now rewrite Hroom.
  - intros prompt Hprompt ->.
    destruct (ROOMS w !! code) as [room|] eqn:Hroom.
    + destruct (prompt_for_room w code room Hroom) as (p & Hp & Hup).
      rewrite Hprompt in Hup. discriminate.
    + unfold build_mindmap_prompt in Hprompt. rewrite Hroom in Hprompt. discriminate.
  - intros [room Hroom] Hother. unfold build_mindmap_prompt. rewrite Hroom.
    assert (List.filter (fun '(_, t) => bool_decide (room_id t = code)) (topics w) = [])
      as ->; [|reflexivity].
    induction Hother as [|[t_id t] l Ht _ IH]; [reflexivity|]. simpl.
    rewrite bool_decide_eq_false_2 by exact Ht. exact IH.
Qed.

Lemma markdown_source_has_prompt w request :
  (markdown_source w request).1
  <> inl (HTTPException 400 (py "無法構建心智圖 prompt")).
Proof.
  unfold markdown_source. destruct (request_field room_code request) as [code|].
  - destruct (ROOMS w !! code) as [room|] eqn:Hroom; [|discriminate].
    destruct (prompt_for_room w code room Hroom) as (p & _ & ->).
    destruct (ai_markdown w code p room) as [[e|md] rooms]; cbn [fst try_except].
    + destruct (rooms !! code); discriminate.
    + discriminate.
  - destruct (request_field custom_content request); discriminate.
Qed.

(** X15. The guard against a prompt that cannot be built is dead code in
    [generate_mindmap]: no request, in no world, is answered with the
    HTTP 400 it raises. *)
Theorem X15_generate_never_reports_a_missing_prompt
    (repr_float : float -> pystr) (w : World) (request : option MindMapRequest) :
  (generate_mindmap repr_float w request).1
  <> inl (HTTPException 400 (py "無法構建心智圖 prompt")).
Proof.
  pose proof (markdown_source_has_prompt w request) as Hsrc.
  unfold generate_mindmap. destruct (markdown_source w request) as [[e|md] rooms];
    cbn [fst bind] in *.
  - unfold raise. destruct e as [status detail|msg|msg]; intros H.
    + apply Hsrc. injection H as -> ->. reflexivity.
    + injection H as H _. discriminate.
    + injection H as H _. discriminate.
  - unfold respond. destruct (parse_markdown_to_simple_structure md) as [|n l].
    + intros H. injection H as H. revert H. vm_compute. discriminate.
    + destruct (create_simple_svg_mindmap_returns repr_float (n :: l)) as [svg ->].
      discriminate.
Qed.


(** X17. [preview_mindmap_markdown] answers a request either with the
    preview of a room that exists or with HTTP 500: the HTTP 400 and 404 it
    raises itself, like every exception of the AI collaborators, leave it
    as a 500 whose detail starts with ['預覽失敗: ']. *)
Theorem X17_preview_fails_only_with_500 (w : World) (request : MindMapRequest) :
  (exists preview,
     (preview_mindmap_markdown w request).1 = inr preview
     /\ room_code request = Some (p_room_code preview)
     /\ is_Some (ROOMS w !! p_room_code preview)
     /\ build_mindmap_prompt w (p_room_code preview) = Some (prompt_used preview))
  \/ (exists e,
        (preview_mindmap_markdown w request).1
        = inl (HTTPException 500 (py "預覽失敗: " ++ str_of_exn e))).
Proof.
  unfold preview_mindmap_markdown, preview_body.
  destruct (room_code request) as [[|c code]|] eqn:Hcode; cbn [nonempty];
    [right; eexists; reflexivity| |right; eexists; reflexivity].
  destruct (ROOMS w !! (c :: code)) as [room|] eqn:Hroom;
    [|right; eexists; reflexivity].
  destruct (prompt_for_room w (c :: code) room Hroom) as (prompt & Hprompt & ->).
  destruct (ai_markdown w (c :: code) prompt room) as [[e|md] rooms];
    cbn [fst bind try_except]; [right; eexists; reflexivity|].
  left. eexists. split; [reflexivity|]. cbn [p_room_code prompt_used].
  rewrite Hroom. repeat split; [eauto|exact Hprompt].
Qed.

(** What the workspace step does to [ROOMS]: it leaves every room other
    than the requested one as it is, and of the requested room it keeps the
    title. *)
Lemma resolve_workspace_frame w code room k :
  room_title <$> (resolve_workspace w code room).2 !! k = room_title <$> ROOMS w !! k
  /\ (k <> code -> (resolve_workspace w code room).2 !! k = ROOMS w !! k).
Proof.
  unfold resolve_workspace. destruct (nonempty _); [split; reflexivity|].
  destruct (ensure_workspace_exists _ _ _); cbn [snd]; [split; reflexivity|].
  split.
  - rewrite lookup_alter. case_decide; [|reflexivity].
    subst k. now destruct (ROOMS w !! code).
  - intros Hne. now rewrite lookup_alter_ne.
Qed.

Lemma markdown_source_frame w request k :
  room_title <$> (markdown_source w request).2 !! k = room_title <$> ROOMS w !! k
  /\ (request_field room_code request <> Some k ->
      (markdown_source w request).2 !! k = ROOMS w !! k).
Proof.
  unfold markdown_source. destruct (request_field room_code request) as [code|].
  - destruct (ROOMS w !! code) as [room|]; [|split; reflexivity].
    destruct (usable_prompt _) as [prompt|]; [|split; reflexivity].
    unfold ai_markdown.
    pose proof (resolve_workspace_frame w code room k) as [Ht Hk].
    destruct (resolve_workspace w code room) as [r rooms]. cbn [snd] in *.
    split; [exact Ht|]. intros Hne. apply Hk. congruence.
  - destruct (request_field custom_content request); split; reflexivity.
Qed.

(** X18. Neither handler adds a room, removes one or changes a title: after
    a request every key of [ROOMS] has the title it had, and every room but
    the requested one is exactly as it was. *)
Theorem X18_handlers_touch_only_the_workspace_of_the_room
    (repr_float : float -> pystr) (w : World) (request : MindMapRequest) (k : pystr) :
  (room_title <$> (generate_mindmap repr_float w (Some request)).2 !! k
   = room_title <$> ROOMS w !! k
   /\ room_title <$> (preview_mindmap_markdown w request).2 !! k
      = room_title <$> ROOMS w !! k)
  /\ (room_code request <> Some k ->
      (generate_mindmap repr_float w (Some request)).2 !! k = ROOMS w !! k
      /\ (preview_mindmap_markdown w request).2 !! k = ROOMS w !! k).
Proof.
  assert (Hgen : (generate_mindmap repr_float w (Some request)).2
                 = (markdown_source w (Some request)).2).
  { unfold generate_mindmap. now destruct (markdown_source w (Some request)). }
  assert (Hfield : room_code request <> Some k ->
                   request_field room_code (Some request) <> Some k).
  { unfold request_field. destruct (room_code request) as [[|c s]|]; cbn; congruence. }
  assert (Hprev : room_title <$> (preview_mindmap_markdown w request).2 !! k
                  = room_title <$> ROOMS w !! k
                  /\ (room_code request <> Some k ->
                      (preview_mindmap_markdown w request).2 !! k = ROOMS w !! k)).
  { unfold preview_mindmap_markdown, preview_body.
    destruct (room_code request) as [[|c code]|]; cbn [nonempty];
      [split; reflexivity| |split; reflexivity].
    destruct (ROOMS w !! (c :: code)) as [room|]; [|split; reflexivity].
    destruct (usable_prompt _) as [prompt|]; [|split; reflexivity].
    unfold ai_markdown.
    pose proof (resolve_workspace_frame w (c :: code) room k) as [Ht Hk].
    destruct (resolve_workspace w (c :: code) room) as [r rooms]. cbn [snd] in *.
    split; [exact Ht|]. intros Hne. apply Hk. congruence. }
  destruct (markdown_source_frame w (Some request) k) as [Ht Hk].
  rewrite Hgen. split; [split; [exact Ht|apply Hprev]|].
  intros Hne. split; [apply Hk; auto|now apply Hprev].
Qed.

(** X19. A workspace is created once: when the workspace step has returned
    a non-empty workspace for a room, the same step run again on the
    [ROOMS] it left returns that workspace and changes nothing, whatever
    [ensure_workspace_exists] would answer then. *)
Theorem X19_recorded_workspace_is_reused
    (w w' : World) (code slug : pystr) (room : Room) (rooms : gmap pystr Room) :
  ROOMS w !! code = Some room ->
  resolve_workspace w code room = (inr slug, rooms) ->
  slug <> [] ->
  ROOMS w' = rooms ->
  exists room',
    ROOMS w' !! code = Some room'
    /\ room_title room' = room_title room
    /\ resolve_workspace w' code room' = (inr slug, rooms).
Proof.
  intros Hroom Hres Hslug Hw'. unfold resolve_workspace in Hres.
  destruct (nonempty (workspace_slug room)) as [s|] eqn:Hs.
  - injection Hres as <- <-. exists room. rewrite Hw'.
    split; [exact Hroom|]. split; [reflexivity|].
    unfold resolve_workspace. now rewrite Hs, Hw'.
  - destruct (ensure_workspace_exists w code _) as [e|s]; [discriminate|].
    injection Hres as <- <-.
    exists (Build_Room (room_title room) (Some s)). rewrite Hw'.
    split; [now rewrite lookup_alter_eq, Hroom|]. split; [reflexivity|].
    unfold resolve_workspace. cbn [workspace_slug].
    rewrite (nonempty_Some s Hslug). now rewrite Hw'.
Qed.

(** ** The document *)

Lemma startswith_app_l n a b : startswith n a = true -> startswith n (a ++ b) = true.
Proof.
  revert a. induction n as [|c n IH]; intros [|d a] H; simpl in *;
    try reflexivity; try discriminate.
  apply andb_true_iff in H as [-> H]. simpl. now apply IH.
Qed.

Lemma contains_app_l n a b : contains n a = true -> contains n (a ++ b) = true.
Proof.
  induction a as [|c a IH]; simpl; intros H.
  - rewrite orb_false_r in H. destruct n; [|discriminate]. now destruct b.
  - apply orb_true_iff in H as [H|H].
    + change (c :: a ++ b) with ((c :: a) ++ b).
      now rewrite (startswith_app_l n (c :: a) b H).
    + rewrite (IH H). apply orb_true_r.
Qed.

Lemma contains_app_r n a b : contains n b = true -> contains n (a ++ b) = true.
Proof.
  intros H. induction a as [|c a IH]; simpl; [exact H|].
  rewrite IH. apply orb_true_r.
Qed.

Lemma contains_here n b : contains n (n ++ b) = true.
Proof.
  destruct (n ++ b) eqn:E; simpl; rewrite <- E, startswith_app; reflexivity.
Qed.

Lemma contains_concat n (pieces : list pystr) p :
  In p pieces -> contains n p = true -> contains n (concat pieces) = true.
Proof.
  induction pieces as [|q pieces IH]; [contradiction|]. intros [->|Hin] Hp; simpl.
  - now apply contains_app_l.
  - apply contains_app_r. now apply IH.
Qed.





(** ** Prompt Builder *)

Lemma fold_left_append_concat {A} (f : A -> pystr) (l : list A) (init : pystr) :
  fold_left (fun acc a => acc ++ f a) l init = init ++ concat (List.map f l).
Proof.
  revert init. induction l as [|a l IH]; intros init; simpl.
  - now rewrite app_nil_r.
  - now rewrite IH, app_assoc.
Qed.

Lemma prompt_topic_votes w w' topic_data :
  votes w' = votes w -> prompt_topic w' topic_data = prompt_topic w topic_data.
Proof.
  intros Hv. unfold prompt_topic. destruct (comments topic_data) as [[|c cs]|];
    try reflexivity.
  assert (List.map (prompt_comment w') (c :: cs) = List.map (prompt_comment w) (c :: cs))
    as ->; [|reflexivity].
  apply map_ext. intros x. unfold prompt_comment. now rewrite Hv.
Qed.

Lemma prompt_topic_head w topic_data :
  exists rest,
    prompt_topic w topic_data
    = (py "## 主題: " ++ get (topic_name topic_data) (py "未命名主題") ++ [NL; NL])
      ++ rest.
Proof. unfold prompt_topic. eexists. now rewrite <- !app_assoc. Qed.

(** The prompt of a room that has topics, as one text. *)
Lemma prompt_of_room_topics w code room t ts :
  ROOMS w !! code = Some room ->
  List.filter (fun '(_, t) => bool_decide (room_id t = code)) (topics w) = t :: ts ->
  build_mindmap_prompt w code
  = Some ((py "請為以下討論室的內容生成一個結構化的心智圖 Markdown 格式總結。"
           ++ py "討論主題與內容:" ++ [NL; NL])
          ++ concat (List.map (fun x : pystr * TopicData => prompt_topic w x.2) (t :: ts))
          ++ prompt_instructions).
Proof.
  intros Hroom Hf. unfold build_mindmap_prompt. rewrite Hroom, Hf.
  rewrite (fold_left_ext_pairs _ (fun x : pystr * TopicData => prompt_topic w x.2))
    by (intros acc [a b]; reflexivity).
  rewrite fold_left_append_concat. now rewrite <- !app_assoc.
Qed.

(** X21. The prompt of a room depends on the room being there, on the
    topics of that room and on the votes, and on nothing else: two worlds
    that agree on these build the same prompt, whatever the topics of
    their other rooms and whatever else their rooms hold. *)
Theorem X21_prompt_ignores_other_rooms (w w' : World) (code : pystr) :
  (is_Some (ROOMS w' !! code) <-> is_Some (ROOMS w !! code)) ->
  List.filter (fun '(_, t) => bool_decide (room_id t = code)) (topics w')
  = List.filter (fun '(_, t) => bool_decide (room_id t = code)) (topics w) ->
  votes w' = votes w ->
  build_mindmap_prompt w' code = build_mindmap_prompt w code.
Proof.
  intros Hrooms Htopics Hvotes. unfold build_mindmap_prompt. rewrite Htopics.
  generalize (List.filter (fun '(_, t) => bool_decide (room_id t = code)) (topics w)).
  intros l.
  destruct (ROOMS w !! code) as [room|], (ROOMS w' !! code) as [room'|].
  - destruct l as [|t ts]; [reflexivity|]. do 2 f_equal.
    rewrite (fold_left_ext_pairs _ (fun x : pystr * TopicData => prompt_topic w x.2))
      by (intros acc [a b]; cbn [snd]; now rewrite (prompt_topic_votes w w')).
    rewrite (fold_left_ext_pairs
               (fun (prompt : pystr) '(_, topic_data) => prompt ++ prompt_topic w topic_data)
               (fun x : pystr * TopicData => prompt_topic w x.2))
      by (intros acc [a b]; reflexivity).
    reflexivity.
  - destruct Hrooms as [_ H]. destruct H; [eauto|discriminate].
  - destruct Hrooms as [H _]. destruct H; [eauto|discriminate].
  - reflexivity.
Qed.

(** X22. Every topic of the room enters the prompt: for each topic stored
    for the room, the prompt has the section line of that topic, with its
    name or ['未命名主題'] when it has none, followed by an empty line. *)
Theorem X22_prompt_names_every_topic_of_the_room
    (w : World) (code t_id : pystr) (room : Room) (topic_data : TopicData) :
  ROOMS w !! code = Some room ->
  In (t_id, topic_data) (topics w) ->
  room_id topic_data = code ->
  exists prompt,
    build_mindmap_prompt w code = Some prompt
    /\ contains (py "## 主題: " ++ get (topic_name topic_data) (py "未命名主題")
                 ++ [NL; NL]) prompt = true.
Proof.
  intros Hroom Hin Hid.
  assert (Hin' : In (t_id, topic_data)
                   (List.filter (fun '(_, t) => bool_decide (room_id t = code))
                      (topics w))).
  { apply filter_In. split; [exact Hin|]. now apply bool_decide_eq_true_2. }
  destruct (List.filter _ _) as [|t ts] eqn:Hf; [contradiction|].
  rewrite (prompt_of_room_topics w code room t ts Hroom Hf).
  eexists. split; [reflexivity|].
  apply contains_app_r, contains_app_l.
  eapply contains_concat.
  - apply in_map. exact Hin'.
  - cbn [snd].
    destruct (prompt_topic_head w topic_data) as [rest ->]. apply contains_here.
Qed.

(** ** Concrete runs of the further properties *)

Lemma X3_witness :
  parse_markdown_to_simple_structure
    (py "# A" ++ [NL] ++ py "  plain text " ++ [NL] ++ py "- x")
  = [Node 1 (py "A") heading; Node 0 (py "x") item].
Proof.
  rewrite (X3_other_lines_are_ignored (py "# A") (py "  plain text ") (py "- x")).
  - vm_compute. reflexivity.
  - vm_compute. intuition discriminate.
  - vm_compute. reflexivity.
  - vm_compute. reflexivity.
Defined.

Lemma X5_witness :
  build_topics [Node 2 (py "Orphan") heading; Node 0 (py "lost") item;
                Node 1 (py "A") heading; Node 0 (py "x") item]
  = Builder [Topic (py "A") [] [py "x"]] (Some 0%nat).
Proof.
  pose proof (X5_nodes_before_the_first_topic_are_dropped
                [Node 2 (py "Orphan") heading; Node 0 (py "lost") item]
                [Node 1 (py "A") heading; Node 0 (py "x") item]) as H.
  cbn [app] in H. rewrite H.
  - vm_compute. reflexivity.
  - repeat constructor.
Defined.

Lemma X7_witness :
  create_simple_svg_mindmap repr_float_sample
    ([Node 1 (py "A") heading; Node 0 (py "x") item]
     ++ Node 1 (py "B") heading :: [Node 2 (py "C") heading; Node 0 (py "y") item])
  = create_simple_svg_mindmap repr_float_sample
      [Node 1 (py "A") heading; Node 0 (py "x") item].
Proof.
  apply X7_only_the_first_topic_is_drawn.
  - apply Exists_cons_hd. reflexivity.
  - reflexivity.
Defined.

Lemma X8_witness :
  let six := [py "1"; py "2"; py "3"; py "4"; py "5"; py "6"] in
  let s1 := Node 1 (py "A") heading :: Node 0 (py "loose") item
            :: Node 2 (py "B") heading
            :: List.map (fun x => Node 0 x item) six in
  let s2 := Node 1 (py "A") heading :: Node 2 (py "B") heading
            :: List.map (fun x => Node 0 x item) (take 5 six)
            ++ [Node 1 (py "Z") heading] in
  create_simple_svg_mindmap repr_float_sample s1
  = create_simple_svg_mindmap repr_float_sample s2.
Proof.
  intros six s1 s2.
  apply (X8_document_depends_on_what_is_shown repr_float_sample s1 s2
           (Topic (py "A") [Subtopic (py "B") six] [py "loose"])
           (Topic (py "A") [Subtopic (py "B") (take 5 six)] [])
           [] [Topic (py "Z") [] []]);
    vm_compute; reflexivity.
Defined.

Lemma X9_witness :
  branch_spacing 7 = 85
  /\ 100 <= branch_y 7 6 <= 700
  /\ 40 <= item_y (branch_y 7 6) 4 <= 760.
Proof.
  destruct (X9_rows_stay_inside_the_canvas 7 6 4) as (_ & _ & _ & Hrow & Hitem);
    [lia|lia|lia|].
  split; [reflexivity|]. split; assumption.
Defined.

Lemma X10_witness :
  wrap_text (py "pneumonoultramicroscopicsilicovolcanoconiosis") 150 11
  = [py "pneumonoultramicroscopicsilicovolcanoconiosis"].
Proof.
  apply X10_text_without_spaces_is_one_line.
  apply Forall_forall. intros c Hc.
  apply list_elem_of_In in Hc. vm_compute in Hc.
  repeat (destruct Hc as [<-|Hc]; [reflexivity|]). contradiction.
Defined.

Lemma X11_witness :
  let text := py "the quick brown fox jumps over the lazy dog" in
  (length (wrap_text text 200 14) <= length (split text))%nat
  /\ length (wrap_text text 200 14) = 2%nat /\ length (split text) = 9%nat.
Proof.
  intros text.
  destruct (X11_no_more_lines_than_words text 200 14) as [Hle _].
  - vm_compute. reflexivity.
  - vm_compute. discriminate.
  - split; [exact Hle|]. split; vm_compute; reflexivity.
Defined.

Lemma X12_witness :
  calculate_text_width (py "ab人") 18 = calculate_text_width (py "人ba") 18.
Proof.
  apply (X12_width_ignores_the_order_of_characters (py "ab人") (py "人ba") 18).
  change (py "人ba") with (rev (py "ab人")). apply Permutation_rev.
Defined.

Lemma X13_witness :
  strip_code_fence (py "```" ++ py "markdown" ++ [NL] ++ py "# A
- b" ++ [NL] ++ py "```")
  = py "# A
- b".
Proof.
  apply X13_fenced_body_is_recovered. vm_compute. intuition discriminate.
Defined.


Lemma X19_witness :
  let w := two_room_world (ok (py "ws-new")) (ok []) in
  let room := {| room_title := Some (py "Roadmap"); workspace_slug := None |} in
  let rooms := (resolve_workspace w (py "R1") room).2 in
  let w' := with_rooms rooms (two_room_world (raise (OtherException (py "offline"))) (ok [])) in
  rooms !! py "R1"
  = Some {| room_title := Some (py "Roadmap"); workspace_slug := Some (py "ws-new") |}
  /\ exists room',
       ROOMS w' !! py "R1" = Some room'
       /\ resolve_workspace w' (py "R1") room' = (inr (py "ws-new"), rooms).
Proof.
  intros w room rooms w'.
  split; [vm_compute; reflexivity|].
  destruct (X19_recorded_workspace_is_reused w w' (py "R1") (py "ws-new") room rooms)
    as (room' & Hroom' & _ & Hres).
  - vm_compute. reflexivity.
  - reflexivity.
  - discriminate.
  - reflexivity.
  - eauto.
Defined.

Lemma X21_witness :
  build_mindmap_prompt (two_room_world (ok []) (ok [])) (py "R1")
  = build_mindmap_prompt (sample_world (ok [])) (py "R1").
Proof.
  apply X21_prompt_ignores_other_rooms.
  - split; intros _; vm_compute; eauto.
  - vm_compute. reflexivity.
  - reflexivity.
Defined.

Lemma X22_witness :
  let topic_data :=
    {| room_id := py "R1"; topic_name := Some (py "Scope");
       comments :=
         Some [{| comment_id := Some (py "c1"); nickname := Some (py "Ann");
                  content := Some (py "ship it") |}] |} in
  In (py "t1", topic_data) (topics (sample_world (ok [])))
  /\ contains (py "## 主題: " ++ get (topic_name topic_data) (py "未命名主題")
               ++ [NL; NL]) sample_prompt = true.
Proof.
  intros topic_data.
  assert (Hin : In (py "t1", topic_data) (topics (sample_world (ok []))))
    by (left; reflexivity).
  split; [exact Hin|].
  destruct (X22_prompt_names_every_topic_of_the_room
              (sample_world (ok [])) (py "R1") (py "t1") sample_room topic_data)
    as (prompt & Hprompt & Hhas).
  - vm_compute. reflexivity.
  - exact Hin.
  - reflexivity.
  - unfold sample_prompt. rewrite Hprompt. exact Hhas.
Defined.
